(** * insightly_stages: the stage tracker of [insightly_stages.py]

    A shallow embedding of [src/insightly_stages.py] and the properties of
    its stage-tracking run.  Python dictionaries with a fixed set of keys
    are records, the [stages] dictionary is a [gmap], the [CUSTOMFIELDS]
    list is a list updated by index (an index is the reference that
    [get_custom_field] hands back), and the effects of a run (HTTP
    requests, log records, clock readings, exceptions) are threaded
    through a small state-and-error monad. *)

From Stdlib Require Import ZArith String Ascii List Lia Bool.
From stdpp Require Import base option list strings pretty gmap.

Import ListNotations.
Local Open Scope string_scope.
Local Open Scope list_scope.
Local Open Scope Z_scope.

(** ** Python values *)

Module Py.

(** The interpreter line.  The only place where the program's behaviour
    depends on it is the ordering of an [int] against a [str]. *)
Inductive version := Py2 | Py3.

(** Scalar JSON values as [json.loads] produces them (numbers with a
    fractional part are left out). *)
Inductive value :=
| VNone
| VBool (b : bool)
| VInt (z : Z)
| VStr (s : string).

Inductive exn :=
| HttpError (verb : string) (status : Z) (url : string)
| KeyError (key : string)
| TypeError
| ValueError
| IndexError.

(** [bool(v)] *)
Definition truthy (v : value) : bool :=
  match v with
  | VNone => false
  | VBool b => b
  | VInt z => negb (z =? 0)
  | VStr s => negb (String.eqb s "")
  end.

(** [bool] is a subclass of [int]: [True == 1]. *)
Definition as_int (v : value) : option Z :=
  match v with
  | VInt z => Some z
  | VBool b => Some (if b then 1 else 0)
  | _ => None
  end.

(** [n == v] for an [int] n *)
Definition int_eq (n : Z) (v : value) : bool :=
  match as_int v with
  | Some k => n =? k
  | None => false
  end.

(** [n > v] for an [int] n.  Against a number the comparison is numeric.
    Python 2 orders [None] below and [str] above every number; Python 3
    raises [TypeError]. *)
Definition int_gt (py : version) (n : Z) (v : value) : exn + bool :=
  match as_int v with
  | Some k => inr (k <? n)
  | None =>
      match py with
      | Py2 => inr (match v with VNone => true | _ => false end)
      | Py3 => inl TypeError
      end
  end.

End Py.
Import Py.

(** ** Dates: the part of [datetime] the program uses *)

Module Datetime.

Record datetime := mk_datetime {
  year : Z; month : Z; day : Z;
  hour : Z; minute : Z; second : Z; microsecond : Z
}.

Definition is_leap (y : Z) : bool :=
  (y mod 4 =? 0) && (negb (y mod 100 =? 0) || (y mod 400 =? 0)).

Definition days_in_month (y m : Z) : Z :=
  if m =? 2 then (if is_leap y then 29 else 28)
  else if (m =? 4) || (m =? 6) || (m =? 9) || (m =? 11) then 30
  else 31.

Definition days_before_year (y : Z) : Z :=
  let y1 := y - 1 in y1 * 365 + y1 / 4 - y1 / 100 + y1 / 400.

Definition days_before_month (y m : Z) : Z :=
  nth (Z.to_nat m) [0; 0; 31; 59; 90; 120; 151; 181; 212; 243; 273; 304; 334] 0
  + (if (2 <? m) && is_leap y then 1 else 0).

(** [date.toordinal()]: day 1 is 0001-01-01. *)
Definition toordinal (d : datetime) : Z :=
  days_before_year (year d) + days_before_month (year d) (month d) + day d.

Definition valid (d : datetime) : Prop :=
  1 <= year d <= 9999 /\ 1 <= month d <= 12 /\
  1 <= day d <= days_in_month (year d) (month d) /\
  0 <= hour d < 24 /\ 0 <= minute d < 60 /\ 0 <= second d < 60 /\
  0 <= microsecond d < 1000000.

Definition us_per_day : Z := 86400 * 1000000.

Definition time_of_day_us (d : datetime) : Z :=
  ((hour d * 60 + minute d) * 60 + second d) * 1000000 + microsecond d.

(** [(a - b).days]: a [timedelta] is normalised with a floor division,
    so [days] is the floor of the difference in days. *)
Definition sub_days (a b : datetime) : Z :=
  ((toordinal a * us_per_day + time_of_day_us a)
   - (toordinal b * us_per_day + time_of_day_us b)) / us_per_day.

(** The calendar day of a reading, as the datetime at its midnight. *)
Definition midnight (d : datetime) : datetime :=
  mk_datetime (year d) (month d) (day d) 0 0 0 0.

Definition digit (n : Z) : ascii := ascii_of_N (48 + Z.to_N n).

Definition pad2 (n : Z) (rest : string) : string :=
  String (digit (n / 10 mod 10)) (String (digit (n mod 10)) rest).

Definition pad4 (n : Z) (rest : string) : string :=
  String (digit (n / 1000 mod 10)) (String (digit (n / 100 mod 10)) (pad2 n rest)).

(** [d.strftime('%Y-%m-%d 00:00:00')], the year zero-padded to four
    digits (what every platform writes for the years from 1000 on). *)
Definition strftime_midnight (d : datetime) : string :=
  pad4 (year d) (String "-" (pad2 (month d) (String "-" (pad2 (day d) " 00:00:00")))).

Definition digit_val (c : ascii) : option Z :=
  let n := N_of_ascii c in
  if ((48 <=? n) && (n <=? 57))%N then Some (Z.of_N n - 48) else None.

Definition is_space (c : ascii) : bool :=
  let n := N_of_ascii c in ((n =? 32) || ((9 <=? n) && (n <=? 13)))%N.

(** The alternatives of the regular expression for [%m],
    [1[0-2]|0[1-9]|[1-9]], in the order the matcher tries them; each
    gives the month and the rest of the input. *)
Definition month_alts (s : string) : list (Z * string) :=
  match s with
  | String a r1 =>
      match digit_val a with
      | Some x =>
          (match r1 with
           | String b r2 =>
               match digit_val b with
               | Some y =>
                   (if (x =? 1) && (y <=? 2) then [(10 + y, r2)] else [])
                   ++ (if (x =? 0) && (1 <=? y) then [(y, r2)] else [])
               | None => []
               end
           | EmptyString => []
           end)
          ++ (if 1 <=? x then [(x, r1)] else [])
      | None => []
      end
  | EmptyString => []
  end.

(** The alternatives for [%d]: [3[0-1]|[1-2]\d|0[1-9]|[1-9]| [1-9]]. *)
Definition day_alts (s : string) : list (Z * string) :=
  match s with
  | String a r1 =>
      match digit_val a with
      | Some x =>
          (match r1 with
           | String b r2 =>
               match digit_val b with
               | Some y =>
                   (if (x =? 3) && (y <=? 1) then [(30 + y, r2)] else [])
                   ++ (if (1 <=? x) && (x <=? 2) then [(10 * x + y, r2)] else [])
                   ++ (if (x =? 0) && (1 <=? y) then [(y, r2)] else [])
               | None => []
               end
           | EmptyString => []
           end)
          ++ (if 1 <=? x then [(x, r1)] else [])
      | None =>
          if Ascii.eqb a " " then
            match r1 with
            | String b r2 =>
                match digit_val b with
                | Some y => if 1 <=? y then [(y, r2)] else []
                | None => []
                end
            | EmptyString => []
            end
          else []
      end
  | EmptyString => []
  end.

Fixpoint skip_spaces (s : string) : string :=
  match s with
  | String c r => if is_space c then skip_spaces r else s
  | EmptyString => s
  end.

(** The tail of the format: [\s+] (a blank in the format stands for any
    run of white space), the literal [00:00:00], and the end of the
    input. *)
Definition tail_matches (s : string) : bool :=
  match s with
  | String c r => is_space c && String.eqb (skip_spaces r) "00:00:00"
  | EmptyString => false
  end.

(** After the year and its dash: the first way through the alternatives
    that matches the whole input. *)
Definition match_month_day (s : string) : option (Z * Z) :=
  head (m_r ← month_alts s;
        match m_r.2 with
        | String "-" r =>
            d_r ← day_alts r;
            if tail_matches d_r.2 then [(m_r.1, d_r.1)] else []
        | _ => []
        end).

(** [datetime.strptime(s, '%Y-%m-%d 00:00:00')] on a [str]; [None] is
    its [ValueError] (no match, or a date that does not exist).  Digits
    are 0 to 9 and white space is the ASCII white space, which is the
    whole of the two classes on ASCII text without control characters
    and under Python 2 on any text. *)
Definition strptime_midnight (s : string) : option datetime :=
  match s with
  | String a (String b (String c (String d (String "-" r)))) =>
      match digit_val a, digit_val b, digit_val c, digit_val d with
      | Some a, Some b, Some c, Some d =>
          let y := ((a * 10 + b) * 10 + c) * 10 + d in
          match match_month_day r with
          | Some (m, dd) =>
              if (1 <=? y) && (dd <=? days_in_month y m)
              then Some (mk_datetime y m dd 0 0 0 0)
              else None
          | None => None
          end
      | _, _, _, _ => None
      end
  | _ => None
  end.

End Datetime.
Import Datetime.

(** ** Data model: the JSON objects the program reads and writes *)

(** A custom-field definition, an element of [GET /CustomFields]. *)
Module FieldDef.
Record t := mk {
  CUSTOM_FIELD_ID : string;
  FIELD_FOR : string;
  FIELD_NAME : string
}.
End FieldDef.

(** An element of an opportunity's [CUSTOMFIELDS]; [FIELD_VALUE = None] is
    a dictionary without the key ['FIELD_VALUE']. *)
Module FieldValue.
Record t := mk {
  CUSTOM_FIELD_ID : string;
  FIELD_VALUE : option value
}.
End FieldValue.

Module Stage.
Record t := mk {
  STAGE_ID : Z;
  PIPELINE_ID : Z;
  STAGE_ORDER : Z
}.
End Stage.

(** An opportunity; [STAGE_ID = None] is JSON [null].  The keys the
    program never looks at are left out. *)
Module Opportunity.
Record t := mk {
  OPPORTUNITY_ID : Z;
  STAGE_ID : option Z;
  CUSTOMFIELDS : list FieldValue.t
}.

Definition with_CUSTOMFIELDS (opp : t) (cfs : list FieldValue.t) : t :=
  mk (OPPORTUNITY_ID opp) (STAGE_ID opp) cfs.
End Opportunity.

(** ** Custom fields of an opportunity *)

Definition has_id (field_id : string) (x : FieldValue.t) : Prop :=
  FieldValue.CUSTOM_FIELD_ID x = field_id.

#[global] Instance has_id_dec field_id x : Decision (has_id field_id x) :=
  decide (FieldValue.CUSTOM_FIELD_ID x = field_id).

(** [get_custom_field(opp, field_id, default)], lines 128-137.  The
    dictionary it returns is an element of the list, and the caller
    writes through it: the model returns its index, together with the
    list, which has grown by one entry when there was no match.  A
    [default] of [VNone] is Python's [None]: no value is stored. *)
Definition new_field (field_id : string) (default : value) : FieldValue.t :=
  FieldValue.mk field_id (match default with VNone => None | v => Some v end).

Definition get_custom_field (cfs : list FieldValue.t) (field_id : string)
    (default : value) : nat * list FieldValue.t :=
  match list_find (has_id field_id) cfs with
  | Some (i, _) => (i, cfs)
  | None => (length cfs, cfs ++ [new_field field_id default])
  end.

(** [field.get('FIELD_VALUE')] through a reference, as an option: [None]
    when the key is missing. *)
Definition value_at (cfs : list FieldValue.t) (i : nat) : option value :=
  cfs !! i ≫= FieldValue.FIELD_VALUE.

(** [field['FIELD_VALUE'] = v] through a reference. *)
Definition set_value (cfs : list FieldValue.t) (i : nat) (v : value)
  : list FieldValue.t :=
  alter (λ f, FieldValue.mk (FieldValue.CUSTOM_FIELD_ID f) (Some v)) i cfs.

(** The entry a read of [field_id] sees: the first one with that id. *)
Definition first_entry (cfs : list FieldValue.t) (field_id : string)
  : option FieldValue.t :=
  snd <$> list_find (has_id field_id) cfs.

(** The value a read of [field_id] sees: [None] without an entry, or
    with an entry that has no ['FIELD_VALUE']. *)
Definition read (cfs : list FieldValue.t) (field_id : string) : option value :=
  first_entry cfs field_id ≫= FieldValue.FIELD_VALUE.

(** The entry [get_custom_field] hands back: the first one with the id,
    or the new one. *)
Definition entry_read (cfs : list FieldValue.t) (field_id : string)
    (default : value) : FieldValue.t :=
  from_option id (new_field field_id default) (first_entry cfs field_id).

(** How many entries carry [field_id]. *)
Definition entries (cfs : list FieldValue.t) (field_id : string) : nat :=
  length (filter (has_id field_id) cfs).

(** ** Field Resolver *)

Definition lower_ascii (c : ascii) : ascii :=
  let n := N_of_ascii c in
  if ((65 <=? n) && (n <=? 90))%N then ascii_of_N (n + 32) else c.

(** [s.lower()] on ASCII text. *)
Fixpoint lower (s : string) : string :=
  match s with
  | EmptyString => EmptyString
  | String c r => String (lower_ascii c) (lower r)
  end.

(** [needle in hay] *)
Fixpoint contains (needle hay : string) : bool :=
  String.prefix needle hay ||
  match hay with
  | EmptyString => false
  | String _ r => contains needle r
  end.

(** [get_fields_by_name(fields, name)], lines 140-143, as the list the
    caller makes of the generator. *)
Definition get_fields_by_name (fields : list FieldDef.t) (name : string)
  : list FieldDef.t :=
  List.filter
    (fun x => String.eqb (FieldDef.FIELD_FOR x) "OPPORTUNITY"
              && contains (lower name) (lower (FieldDef.FIELD_NAME x)))
    fields.

(** ** Effects of a run *)

Inductive level := INFO | ERROR | CRITICAL.

(** The log records of the program, by their format string. *)
Inductive message :=
| MoreThanOne (fieldname : string) (found : list FieldDef.t)
| NoFieldFound (fieldname : string)
| NoStageFound (stage_id : Z)
| OpportunitiesFound (n : nat)
| StageUpdated (opportunity_id : Z) (last_known_stage : value)
| ApiError (e : exn).

(** What a run does to the outside, in order.  [GetPage url skip] is the
    request of [url&skip=<skip>&count_total=true]; [Put id json] is the
    request to [/opportunities/<id>]. *)
Inductive event :=
| Get (url : string)
| GetPage (url : string) (skip : nat)
| Put (opportunity_id : Z) (json : Opportunity.t)
| Log (lvl : level) (msg : message).

Record response (A : Type) := mk_response {
  status_code : Z;
  content : A
}.
Arguments mk_response {A}.
Arguments status_code {A}.
Arguments content {A}.

(** The remote service: what it answers to each request of the program.
    [X_Total_Count] is the header of a page of the opportunity search. *)
Record server := mk_server {
  custom_fields : response (list FieldDef.t);
  pipeline_stages : response (list Stage.t);
  opportunities : nat -> response (list Opportunity.t) * Z;
  put_opportunity : Z -> Opportunity.t -> Z
}.

Definition X_Total_Count (page : response (list Opportunity.t) * Z) : Z := snd page.

(** The state a run threads: the events so far, oldest first, and the
    number of clock readings taken. *)
Record state := mk_state {
  trace : list event;
  ticks : nat
}.

Definition initial : state := mk_state [] 0.

Inductive result (A : Type) :=
| Ok (a : A)
| Raise (e : exn)
| Timeout.
Arguments Ok {A}.
Arguments Raise {A}.
Arguments Timeout {A}.

Definition M (A : Type) : Type := state -> result A * state.

Definition ret {A} (a : A) : M A := fun s => (Ok a, s).

Definition bind {A B} (m : M A) (k : A -> M B) : M B :=
  fun s =>
    match m s with
    | (Ok a, s') => k a s'
    | (Raise e, s') => (Raise e, s')
    | (Timeout, s') => (Timeout, s')
    end.

Definition raise {A} (e : exn) : M A := fun s => (Raise e, s).

Definition out_of_fuel {A} : M A := fun s => (Timeout, s).

Definition emit (e : event) : M unit :=
  fun s => (Ok tt, mk_state (trace s ++ [e]) (ticks s)).

Declare Scope run_scope.
Delimit Scope run_scope with run.
Notation "'let*' x ':=' c1 'in' c2" := (bind c1 (fun x => c2))
  (at level 10, x pattern, c1 at level 200, c2 at level 200) : run_scope.
Notation "c1 ;; c2" := (bind c1 (fun _ => c2))
  (at level 100, c2 at level 200, right associativity) : run_scope.
Local Open Scope run_scope.

(** The exit status of the interpreter running [main]: 0 when it returns,
    1 when an exception reaches the top level. *)
Definition exit_status {A} (r : result A) : option Z :=
  match r with
  | Ok _ => Some 0
  | Raise _ => Some 1
  | Timeout => None
  end.

Section Run.

Variable py : version.
Variable srv : server.
(** [clock n] is what the n-th call of [datetime.now()] of the run
    returns. *)
Variable clock : nat -> datetime.

Definition datetime_now : M datetime :=
  fun s => (Ok (clock (ticks s)), mk_state (trace s) (S (ticks s))).

(** ** HTTP helpers, lines 26-60 *)

Definition api_error {A} (verb : string) (status : Z) (url : string) : M A :=
  let err := HttpError verb status url in
  emit (Log CRITICAL (ApiError err));; raise err.

(** The [while True] of [insightly_get_all], one iteration per unit of
    fuel. *)
Fixpoint insightly_get_all_loop (fuel : nat) (url : string)
    (results : list Opportunity.t) (skip : nat) : M (list Opportunity.t) :=
  match fuel with
  | O => out_of_fuel
  | S fuel' =>
      emit (GetPage url skip);;
      let response := opportunities srv skip in
      if negb (status_code (fst response) =? 200)
      then api_error "GET" (status_code (fst response)) url
      else
        let results := results ++ content (fst response) in
        if X_Total_Count response <=? Z.of_nat (length results)
        then ret results
        else insightly_get_all_loop fuel' url results (skip + length results)
  end.

Definition insightly_get_all (fuel : nat) (url : string) : M (list Opportunity.t) :=
  insightly_get_all_loop fuel url [] 0.

(** [insightly_get(url, auth)] for the resource the server keeps at
    [url]. *)
Definition insightly_get {A} (url : string) (resource : response A) : M A :=
  emit (Get url);;
  if negb (status_code resource =? 200)
  then api_error "GET" (status_code resource) url
  else ret (content resource).

Definition insightly_put (opp : Opportunity.t) : M unit :=
  let id := Opportunity.OPPORTUNITY_ID opp in
  emit (Put id opp);;
  let status := put_opportunity srv id opp in
  if negb (status =? 200)
  then api_error "PUT" status ("/opportunities/" +:+ pretty id)
  else ret tt.

End Run.

Section Tracker.

Variable py : version.
Variable srv : server.
Variable clock : nat -> datetime.

(** The three resolved field ids. *)
Record field_ids := mk_ids {
  last_known_stage_id : string;
  last_time_stage_changed_id : string;
  days_in_current_stage_id : string
}.

(** [field['FIELD_VALUE']] *)
Definition getitem_FIELD_VALUE (cfs : list FieldValue.t) (i : nat) : M value :=
  match value_at cfs i with
  | Some v => ret v
  | None => raise (KeyError "FIELD_VALUE")
  end.

(** [datetime.strptime(v, '%Y-%m-%d 00:00:00')] *)
Definition strptime (v : value) : M datetime :=
  match v with
  | VStr s =>
      match strptime_midnight s with
      | Some d => ret d
      | None => raise ValueError
      end
  | _ => raise TypeError
  end.

(** Lines 185-195, the decision, on the three references and the list
    they point into.  A write goes through a reference; the result is
    the list as the decision leaves it. *)
Definition stage_decision (stage_order : Z)
    (last_known_stage last_time_stage_changed days_in_current_stage : nat)
    (cfs : list FieldValue.t) : M (list FieldValue.t) :=
  if truthy (default VNone (value_at cfs last_known_stage)) then
    let* recorded := getitem_FIELD_VALUE cfs last_known_stage in
    if int_eq stage_order recorded then
      let* stored := getitem_FIELD_VALUE cfs last_time_stage_changed in
      let* last_time := strptime stored in
      let* now := datetime_now clock in
      ret (set_value cfs days_in_current_stage (VInt (sub_days now last_time)))
    else
      let* recorded := getitem_FIELD_VALUE cfs last_known_stage in
      match int_gt py stage_order recorded with
      | inl e => raise e
      | inr true =>
          let cfs := set_value cfs days_in_current_stage (VInt 0) in
          let* now := datetime_now clock in
          let cfs :=
            set_value cfs last_time_stage_changed (VStr (strftime_midnight now)) in
          ret (set_value cfs last_known_stage (VInt stage_order))
      | inr false => ret cfs
      end
  else
    let cfs := set_value cfs last_known_stage (VInt stage_order) in
    let* now := datetime_now clock in
    ret (set_value cfs last_time_stage_changed (VStr (strftime_midnight now))).

(** Lines 180-195: the reading of the clock, the reads of the three
    custom fields and the decision.  The result is the reference
    [last_known_stage], which the log record after the write still
    uses, and the [CUSTOMFIELDS] list as the code leaves it. *)
Definition track_stage (ids : field_ids) (stage_order : Z)
    (cfs : list FieldValue.t) : M (nat * list FieldValue.t) :=
  let* now := datetime_now clock in
  let now := VStr (strftime_midnight now) in
  let '(last_known_stage, cfs) :=
    get_custom_field cfs (last_known_stage_id ids) VNone in
  let '(last_time_stage_changed, cfs) :=
    get_custom_field cfs (last_time_stage_changed_id ids) now in
  let '(days_in_current_stage, cfs) :=
    get_custom_field cfs (days_in_current_stage_id ids) (VInt 0) in
  let* cfs :=
    stage_decision stage_order last_known_stage last_time_stage_changed
      days_in_current_stage cfs in
  ret (last_known_stage, cfs).

(** How the body of the [for] loop ends: by falling through or
    [continue], or by the [return] of the whole function. *)
Inductive flow := Next | Return.

(** The body of the loop over the opportunities, lines 173-199, as the
    flow and the opportunity as the body leaves it. *)
Definition process_opportunity (ids : field_ids) (stages : gmap Z Stage.t)
    (opp : Opportunity.t) : M (flow * Opportunity.t) :=
  match Opportunity.STAGE_ID opp with
  | None => ret (Next, opp)
  | Some stage_id =>
      if stage_id =? 0 then ret (Next, opp)
      else
        match stages !! stage_id with
        | None =>
            emit (Log ERROR (NoStageFound stage_id));;
            ret (Return, opp)
        | Some stage =>
            let stage_order := Stage.STAGE_ORDER stage in
            let* (last_known_stage, cfs) :=
              track_stage ids stage_order (Opportunity.CUSTOMFIELDS opp) in
            let opp := Opportunity.with_CUSTOMFIELDS opp cfs in
            insightly_put srv opp;;
            let* v := getitem_FIELD_VALUE cfs last_known_stage in
            emit (Log INFO (StageUpdated (Opportunity.OPPORTUNITY_ID opp) v));;
            ret (Next, opp)
        end
  end.

(** [for opp in opportunities], as the flow at its end and the list of
    opportunities as the loop leaves it. *)
Fixpoint for_opportunities (ids : field_ids) (stages : gmap Z Stage.t)
    (opps : list Opportunity.t) : M (flow * list Opportunity.t) :=
  match opps with
  | [] => ret (Next, [])
  | opp :: rest =>
      let* (fl, opp) := process_opportunity ids stages opp in
      match fl with
      | Return => ret (Return, opp :: rest)
      | Next =>
          let* (fl, rest) := for_opportunities ids stages rest in
          ret (fl, opp :: rest)
      end
  end.

(** The loop over [fields_map], lines 155-161: the record logged for the
    first name without exactly one match.  The names come in the order
    of the dictionary display (the iteration order of Python 3.7 and
    later; an older interpreter visits the same three names in an order
    of its own). *)
Fixpoint check_fields_map (fields_map : list (string * list FieldDef.t))
  : option message :=
  match fields_map with
  | [] => None
  | (fieldname, found) :: rest =>
      if (1 <? length found)%nat then Some (MoreThanOne fieldname found)
      else if (length found =? 0)%nat then Some (NoFieldFound fieldname)
      else check_fields_map rest
  end.

(** [{x['STAGE_ID']: x for x in ...}]: a later stage with the same id
    replaces an earlier one. *)
Definition stages_by_id (l : list Stage.t) : gmap Z Stage.t :=
  foldl (λ m x, <[Stage.STAGE_ID x := x]> m) ∅ l.

Definition OPEN_URL : string := "/opportunities/Search?opportunity_state=OPEN".

(** [process_opportunities_stages()], lines 146-199; [fuel] bounds the
    iterations of the paging loop. *)
Definition process_opportunities_stages (fuel : nat) : M unit :=
  let* fields := insightly_get "/CustomFields" (custom_fields srv) in
  let last_known_stage := get_fields_by_name fields "last known stage" in
  let last_time_stage_changed := get_fields_by_name fields "last time stage changed" in
  let days_in_current_stage := get_fields_by_name fields "days in current stage" in
  match check_fields_map
          [("last_known_stage", last_known_stage);
           ("last_time_stage_changed", last_time_stage_changed);
           ("days_in_current_stage", days_in_current_stage)] with
  | Some msg => emit (Log ERROR msg)
  | None =>
      match last_known_stage, last_time_stage_changed, days_in_current_stage with
      | f1 :: _, f2 :: _, f3 :: _ =>
          let ids := mk_ids (FieldDef.CUSTOM_FIELD_ID f1)
                            (FieldDef.CUSTOM_FIELD_ID f2)
                            (FieldDef.CUSTOM_FIELD_ID f3) in
          let* opportunities := insightly_get_all srv fuel OPEN_URL in
          let* stages := insightly_get "/PipelineStages" (pipeline_stages srv) in
          let stages := stages_by_id stages in
          emit (Log INFO (OpportunitiesFound (length opportunities)));;
          for_opportunities ids stages opportunities;;
          ret tt
      | _, _, _ => raise IndexError
      end
  end.

(** [main()] after [configure()], which is set-up of the process and
    touches nothing of the run. *)
Definition main (fuel : nat) : result unit * state :=
  process_opportunities_stages fuel initial.

End Tracker.

(** ** Notions the properties are stated with *)

(** The three resolved ids name three different fields. *)
Definition distinct_ids (ids : field_ids) : Prop :=
  last_known_stage_id ids ≠ last_time_stage_changed_id ids ∧
  last_known_stage_id ids ≠ days_in_current_stage_id ids ∧
  last_time_stage_changed_id ids ≠ days_in_current_stage_id ids.

(** Between [s] and [s'] the opportunity [opp] went to the store: the
    first event after [s] is its write. *)
Definition sent (s s' : state) (opp : Opportunity.t) : Prop :=
  ∃ rest, trace s' = trace s ++ Put (Opportunity.OPPORTUNITY_ID opp) opp :: rest.

Definition tick (s : state) : state := mk_state (trace s) (S (ticks s)).

(** The day of the write of an opportunity whose processing starts in
    [s]: its second clock reading, as the text the program stores. *)
Definition today (clock : nat -> datetime) (s : state) : value :=
  VStr (strftime_midnight (clock (S (ticks s)))).

(** The ids the Field Resolver returned. *)
Definition resolved (ids : field_ids) (field_id : string) : Prop :=
  field_id = last_known_stage_id ids ∨
  field_id = last_time_stage_changed_id ids ∨
  field_id = days_in_current_stage_id ids.

(** A paginated search: the result set [items] is served from offset
    [skip] on, at most [page_size] items per request, each answer
    carrying the total count. *)
Definition paged (page_size : nat) (items : list Opportunity.t) (skip : nat)
  : response (list Opportunity.t) * Z :=
  (mk_response 200 (take page_size (drop skip items)), Z.of_nat (length items)).

(** ** The scenarios of [test.py] *)

Module TestCase.

Definition fields : list FieldDef.t :=
  [FieldDef.mk "last_stage" "OPPORTUNITY" "last known stage";
   FieldDef.mk "last_time" "OPPORTUNITY" "last time stage changed";
   FieldDef.mk "days_in_cur_stage" "OPPORTUNITY" "days in current stage"].

Definition stages : list Stage.t :=
  [Stage.mk 1 259547 1; Stage.mk 2 259547 2].

Definition ids : field_ids := mk_ids "last_stage" "last_time" "days_in_cur_stage".

Definition fake_insightly_with (stages : list Stage.t)
    (opps : list Opportunity.t) : server :=
  mk_server (mk_response 200 fields) (mk_response 200 stages)
            (paged 500 opps) (fun _ _ => 200).

Definition fake_insightly : list Opportunity.t -> server :=
  fake_insightly_with stages.

(** Every reading of the clock is 2016-03-29 12:03:56. *)
Definition now : datetime := mk_datetime 2016 3 29 12 3 56 0.
Definition clock (n : nat) : datetime := now.

Definition today : value := VStr "2016-03-29 00:00:00".

Definition run_with (stages : list Stage.t) (opps : list Opportunity.t)
  : result unit * state :=
  main Py2 (fake_insightly_with stages opps) clock 10.

Definition run : list Opportunity.t -> result unit * state := run_with stages.

Definition puts (s : state) : list Opportunity.t :=
  omap (fun e => match e with Put _ json => Some json | _ => None end) (trace s).

End TestCase.

(** ** Concrete inputs *)

Module Scenario.

(** Opportunity 1, at stage 1, with the three tracked fields. *)
Definition tracked (last_stage : value) (last_time : string) (days : value)
  : Opportunity.t :=
  Opportunity.mk 1 (Some 1)
    [FieldValue.mk "last_stage" (Some last_stage);
     FieldValue.mk "last_time" (Some (VStr last_time));
     FieldValue.mk "days_in_cur_stage" (Some days)].

(** A catalog in which stage 1 has the given order. *)
Definition stage_at_order (n : Z) : list Stage.t := [Stage.mk 1 259547 n].

Definition catalog : gmap Z Stage.t := stages_by_id TestCase.stages.

Definition stage1 : Stage.t := Stage.mk 1 259547 1.
Definition stage2 : Stage.t := Stage.mk 2 259547 2.

Definition srv : server := TestCase.fake_insightly [].

(** A service without custom-field definitions. *)
Definition no_fields : server :=
  mk_server (mk_response 200 []) (mk_response 200 TestCase.stages)
            (paged 500 []) (fun _ _ => 200).

Definition five : list Opportunity.t :=
  map (fun n => Opportunity.mk n (Some 1) []) [1; 2; 3; 4; 5].

(** A service with five open opportunities, served two at a time. *)
Definition two_at_a_time : server :=
  mk_server (mk_response 200 TestCase.fields) (mk_response 200 TestCase.stages)
            (paged 2 five) (fun _ _ => 200).

End Scenario.

(** ** Notions for the properties of the loop *)

(** A text of printable ASCII characters, blank to tilde: on these the
    character classes of a format do not depend on the interpreter. *)
Fixpoint printable (s : string) : bool :=
  match s with
  | EmptyString => true
  | String c r =>
      let n := N_of_ascii c in ((32 <=? n) && (n <=? 126))%N && printable r
  end.

(** The opportunity passes the test of line 173: its stage id is neither
    null nor 0. *)
Definition has_stage (opp : Opportunity.t) : bool :=
  match Opportunity.STAGE_ID opp with
  | Some stage_id => negb (stage_id =? 0)
  | None => false
  end.

(** The opportunity ids of the writes among some events, in order. *)
Definition put_ids (evs : list event) : list Z :=
  omap (fun e => match e with Put id _ => Some id | _ => None end) evs.

(** ** More concrete inputs *)

Module Sample.

(** A store that refuses every write. *)
Definition refusing : server :=
  mk_server (mk_response 200 TestCase.fields) (mk_response 200 TestCase.stages)
            (paged 500 []) (fun _ _ => 500).

(** A service whose stage catalog is not available. *)
Definition without_stages : server :=
  mk_server (mk_response 200 TestCase.fields) (mk_response 503 [])
            (paged 500 []) (fun _ _ => 200).

(** A service without custom-field definitions to give. *)
Definition without_fields : server :=
  mk_server (mk_response 401 []) (mk_response 200 TestCase.stages)
            (paged 500 []) (fun _ _ => 200).

Definition three : list Opportunity.t :=
  [Opportunity.mk 1 (Some 1) []; Opportunity.mk 2 None [];
   Opportunity.mk 3 (Some 2) []].

(** A service with three open opportunities, served two at a time. *)
Definition two_pages : server :=
  mk_server (mk_response 200 TestCase.fields) (mk_response 200 TestCase.stages)
            (paged 2 three) (fun _ _ => 200).

Definition new_opportunity : Opportunity.t := Opportunity.mk 1 (Some 1) [].

(** Opportunity 1 as the tracker leaves it on first sight. *)
Definition seen : Opportunity.t :=
  Scenario.tracked (VInt 1) "2016-03-29 00:00:00" (VInt 0).

(** An opportunity with a field the tracker does not know. *)
Definition with_note : list FieldValue.t :=
  [FieldValue.mk "note" (Some (VStr "call back"));
   FieldValue.mk "last_stage" (Some (VInt 1))].

End Sample.

(** * The model on the tests of the repository *)

Example strftime_example :
  strftime_midnight (mk_datetime 2016 3 29 12 3 56 0) = "2016-03-29 00:00:00".
Proof. reflexivity. Qed.

Example strptime_example :
  strptime_midnight "2015-08-30 00:00:00" = Some (mk_datetime 2015 8 30 0 0 0 0).
Proof. reflexivity. Qed.

Example strptime_lenient : strptime_midnight "2015-8-3  00:00:00" = Some (mk_datetime 2015 8 3 0 0 0 0).
Proof. reflexivity. Qed.

Example strptime_bad_date : strptime_midnight "2015-02-30 00:00:00" = None.
Proof. reflexivity. Qed.

Example toordinal_example : toordinal (mk_datetime 2016 3 29 0 0 0 0) = 736052.
Proof. reflexivity. Qed.

Example sub_days_example :
  sub_days (mk_datetime 2016 3 29 12 3 56 0) (mk_datetime 2016 3 24 0 0 0 0) = 5.
Proof. reflexivity. Qed.

Example get_fields_by_name_example :
  get_fields_by_name
    [FieldDef.mk "f1" "OPPORTUNITY" "Last Known Stage (auto)";
     FieldDef.mk "f2" "CONTACT" "last known stage";
     FieldDef.mk "f3" "OPPORTUNITY" "title"] "last known stage"
  = [FieldDef.mk "f1" "OPPORTUNITY" "Last Known Stage (auto)"].
Proof. reflexivity. Qed.

Example get_custom_field_first_match :
  get_custom_field [FieldValue.mk "a" None; FieldValue.mk "b" (Some (VInt 1));
                    FieldValue.mk "b" (Some (VInt 2))] "b" (VInt 0)
  = (1%nat, [FieldValue.mk "a" None; FieldValue.mk "b" (Some (VInt 1));
             FieldValue.mk "b" (Some (VInt 2))]).
Proof. reflexivity. Qed.

Example get_custom_field_appends :
  get_custom_field [FieldValue.mk "a" None] "b" (VInt 0)
  = (1%nat, [FieldValue.mk "a" None; FieldValue.mk "b" (Some (VInt 0))]).
Proof. reflexivity. Qed.

Example test_new_opportunity :
  TestCase.puts (TestCase.run [Opportunity.mk 1 (Some 1) []]).2
  = [Opportunity.mk 1 (Some 1)
       [FieldValue.mk "last_stage" (Some (VInt 1));
        FieldValue.mk "last_time" (Some TestCase.today);
        FieldValue.mk "days_in_cur_stage" (Some (VInt 0))]].
Proof. vm_compute. reflexivity. Qed.

Example test_opportunity_stage_update :
  TestCase.puts (TestCase.run [Opportunity.mk 1 (Some 2)
       [FieldValue.mk "last_stage" (Some (VInt 1));
        FieldValue.mk "last_time" (Some (VStr "2015-08-30 00:00:00"));
        FieldValue.mk "days_in_cur_stage" (Some (VInt 0))]]).2
  = [Opportunity.mk 1 (Some 2)
       [FieldValue.mk "last_stage" (Some (VInt 2));
        FieldValue.mk "last_time" (Some TestCase.today);
        FieldValue.mk "days_in_cur_stage" (Some (VInt 0))]].
Proof. vm_compute. reflexivity. Qed.

Example test_opportunity_stage_linger :
  TestCase.puts (TestCase.run [Opportunity.mk 1 (Some 1)
       [FieldValue.mk "last_stage" (Some (VInt 1));
        FieldValue.mk "last_time" (Some (VStr "2016-03-24 00:00:00"));
        FieldValue.mk "days_in_cur_stage" (Some (VInt 0))]]).2
  = [Opportunity.mk 1 (Some 1)
       [FieldValue.mk "last_stage" (Some (VInt 1));
        FieldValue.mk "last_time" (Some (VStr "2016-03-24 00:00:00"));
        FieldValue.mk "days_in_cur_stage" (Some (VInt 5))]].
Proof. vm_compute. reflexivity. Qed.

Example test_run_trace :
  TestCase.run [Opportunity.mk 1 None []; Opportunity.mk 7 (Some 9) []]
  = (Ok tt,
     mk_state [Get "/CustomFields"; GetPage OPEN_URL 0; Get "/PipelineStages";
               Log INFO (OpportunitiesFound 2); Log ERROR (NoStageFound 9)] 0).
Proof. vm_compute. reflexivity. Qed.

(** * Properties *)

(** ** Reading and writing custom fields *)

Section Fields.

Implicit Types (cfs : list FieldValue.t) (f g : FieldValue.t)
  (v default : value) (i j : nat).

Lemma get_custom_field_found cfs field_id default i f :
  list_find (has_id field_id) cfs = Some (i, f) →
  get_custom_field cfs field_id default = (i, cfs).
Proof. unfold get_custom_field. by intros ->. Qed.

Lemma get_custom_field_missing cfs field_id default :
  list_find (has_id field_id) cfs = None →
  get_custom_field cfs field_id default
  = (length cfs, cfs ++ [new_field field_id default]).
Proof. unfold get_custom_field. by intros ->. Qed.

Lemma find_new_field field_id default :
  list_find (has_id field_id) [new_field field_id default]
  = Some (0%nat, new_field field_id default).
Proof.
  apply list_find_Some. split_and!; [done | done |]. intros j y _ Hj. lia.
Qed.

(** The reference handed back points to the first entry with the id. *)
Lemma get_custom_field_find cfs field_id default :
  list_find (has_id field_id) (get_custom_field cfs field_id default).2
  = Some ((get_custom_field cfs field_id default).1,
          entry_read cfs field_id default).
Proof.
  unfold get_custom_field, entry_read, first_entry.
  destruct (list_find (has_id field_id) cfs) as [[i f]|] eqn:E; simpl.
  - done.
  - rewrite list_find_app_r by done. rewrite find_new_field. simpl.
    do 2 f_equal.
Qed.

(** Reading one id leaves the reads of any other id as they were. *)
Lemma get_custom_field_find_ne cfs field_id default other :
  field_id ≠ other →
  list_find (has_id other) (get_custom_field cfs field_id default).2
  = list_find (has_id other) cfs.
Proof.
  intros Hne. unfold get_custom_field.
  destruct (list_find (has_id field_id) cfs) as [[i f]|] eqn:E; simpl; [done|].
  destruct (list_find (has_id other) cfs) as [[j g]|] eqn:F.
  - by apply list_find_app_l.
  - apply list_find_app_None. split; [done|].
    apply list_find_None. repeat constructor. unfold has_id. simpl. done.
Qed.

Lemma set_value_find cfs field_id i v :
  list_find (has_id field_id) (set_value cfs i v)
  = (λ p, (p.1, if decide (i = p.1) then FieldValue.mk field_id (Some v) else p.2))
      <$> list_find (has_id field_id) cfs.
Proof.
  unfold set_value. revert i.
  induction cfs as [|x cfs IH]; intros i; [done|].
  destruct (decide (has_id field_id x)) as [Hx|Hx].
  - destruct i as [|i]; simpl; rewrite !decide_True by done; simpl; [|done].
    by rewrite Hx.
  - destruct i as [|i]; simpl; rewrite !decide_False by done.
    + destruct (list_find _ cfs) as [[j g]|]; simpl; done.
    + change (list_alter ?h ?k ?l) with (alter h k l). rewrite IH.
      destruct (list_find _ cfs) as [[j g]|]; simpl; [|done].
      destruct (decide (i = j)), (decide (S i = S j)); try done; lia.
Qed.

Lemma find_value_at cfs field_id i f :
  list_find (has_id field_id) cfs = Some (i, f) →
  value_at cfs i = FieldValue.FIELD_VALUE f.
Proof.
  intros (H & _ & _)%list_find_Some. unfold value_at. by rewrite H.
Qed.

(** Writing the value an entry already has changes nothing. *)
Lemma set_value_same cfs i v :
  value_at cfs i = Some v → set_value cfs i v = cfs.
Proof.
  unfold value_at, set_value. revert i.
  induction cfs as [|x cfs IH]; intros i H; [done|].
  destruct i as [|i]; simpl in *.
  - destruct x as [n fv]; simpl in *. by subst.
  - f_equal. by apply IH.
Qed.

Lemma entries_set_value cfs i v field_id :
  entries (set_value cfs i v) field_id = entries cfs field_id.
Proof.
  unfold entries, set_value. revert i.
  induction cfs as [|x cfs IH]; intros i; [done|].
  destruct i as [|i]; simpl.
  - rewrite !filter_cons. unfold has_id at 1 3. simpl.
    by destruct (decide _).
  - change (list_alter ?h ?k ?l) with (alter h k l).
    rewrite !filter_cons. destruct (decide _); simpl; by rewrite IH.
Qed.

Lemma entries_found cfs field_id i f :
  list_find (has_id field_id) cfs = Some (i, f) → (1 ≤ entries cfs field_id)%nat.
Proof.
  intros (H & Hid & _)%list_find_Some. unfold entries.
  assert (f ∈ filter (has_id field_id) cfs) as Hin.
  { apply list_elem_of_filter. split; [done|]. by eapply list_elem_of_lookup_2. }
  destruct (filter _ cfs); [by apply elem_of_nil in Hin | simpl; lia].
Qed.

Lemma entries_missing cfs field_id :
  list_find (has_id field_id) cfs = None → entries cfs field_id = 0%nat.
Proof.
  intros H%list_find_None. unfold entries.
  induction H as [|x l Hx _ IH]; [done|]. rewrite filter_cons.
  by destruct (decide _).
Qed.

(** One read of [field_id]: at least one entry with that id afterwards,
    the count of any other id unchanged. *)
Lemma entries_get_custom_field cfs field_id default other :
  entries (get_custom_field cfs field_id default).2 other
  = if decide (field_id = other) then Nat.max 1 (entries cfs field_id)
    else entries cfs other.
Proof.
  unfold get_custom_field.
  destruct (list_find (has_id field_id) cfs) as [[i f]|] eqn:E; simpl.
  - destruct (decide _) as [<-|]; [|done].
    apply entries_found in E. lia.
  - unfold entries at 1. rewrite filter_app, length_app.
    fold (entries cfs other). rewrite filter_cons, filter_nil.
    unfold has_id at 1. simpl.
    destruct (decide (field_id = other)) as [<-|]; simpl.
    + rewrite (entries_missing _ _ E). done.
    + lia.
Qed.

End Fields.

(** ** Dates *)

(** Case analysis on a natural number below a literal bound. *)
Ltac each_below i tac :=
  first [ lia | destruct i as [|i]; [tac | each_below i tac] ].

Section Dates.

Lemma digit_val_digit k : 0 <= k <= 9 → digit_val (digit k) = Some k.
Proof.
  intros H.
  assert (k = 0 ∨ k = 1 ∨ k = 2 ∨ k = 3 ∨ k = 4 ∨ k = 5 ∨ k = 6 ∨ k = 7
          ∨ k = 8 ∨ k = 9) as Hk by lia.
  repeat (destruct Hk as [-> | Hk]; [reflexivity|]). by subst.
Qed.

(** What [strftime_midnight] writes for a month and a day is read back
    as that month and day. *)
Lemma match_month_day_pad2 m d :
  1 <= m <= 12 → 1 <= d <= 31 →
  match_month_day (pad2 m (String "-" (pad2 d " 00:00:00"))) = Some (m, d).
Proof.
  intros Hm Hd.
  assert (∃ i, (i < 12)%nat ∧ m = 1 + Z.of_nat i) as (i & Hi & ->).
  { exists (Z.to_nat (m - 1)). lia. }
  assert (∃ j, (j < 31)%nat ∧ d = 1 + Z.of_nat j) as (j & Hj & ->).
  { exists (Z.to_nat (d - 1)). lia. }
  clear Hm Hd.
  each_below i ltac:(each_below j ltac:(vm_compute; reflexivity)).
Qed.

Lemma days_in_month_le y m : days_in_month y m <= 31.
Proof. unfold days_in_month. repeat case_match; lia. Qed.

(** Reading back the text written for a date gives the midnight of that
    date. *)
Lemma strptime_strftime d :
  valid d → strptime_midnight (strftime_midnight d) = Some (midnight d).
Proof.
  intros (Hy & Hm & Hd & _).
  pose proof (days_in_month_le (year d) (month d)) as Hle.
  unfold strftime_midnight, pad4. unfold pad2 at 1. unfold strptime_midnight.
  rewrite !digit_val_digit by (Z.div_mod_to_equations; lia).
  rewrite match_month_day_pad2 by lia.
  replace ((((year d / 1000 mod 10 * 10 + year d / 100 mod 10) * 10
             + year d / 10 mod 10) * 10 + year d mod 10)) with (year d)
    by (Z.div_mod_to_equations; lia).
  assert ((1 <=? year d) && (day d <=? days_in_month (year d) (month d)) = true)
    as ->.
  { apply andb_true_intro. split; lia. }
  reflexivity.
Qed.

(** A parsed date is a midnight. *)
Lemma strptime_is_midnight s d : strptime_midnight s = Some d → midnight d = d.
Proof.
  unfold strptime_midnight. intros H.
  repeat case_match; simplify_eq; reflexivity.
Qed.

Lemma time_of_day_bounds d :
  valid d → 0 <= time_of_day_us d < us_per_day.
Proof.
  intros (_ & _ & _ & Hh & Hmi & Hs & Hus).
  unfold time_of_day_us, us_per_day. lia.
Qed.

(** Against a midnight, the days of a difference are the difference of
    the calendar days, whatever the time of day of the reading. *)
Lemma sub_days_midnight now d :
  valid now → midnight d = d →
  sub_days now d = toordinal now - toordinal d.
Proof.
  intros Hv Hd. pose proof (time_of_day_bounds now Hv) as Ht.
  unfold sub_days.
  assert (time_of_day_us d = 0) as ->.
  { rewrite <- Hd. reflexivity. }
  unfold us_per_day in *.
  symmetry. apply (Z.div_unique_pos _ _ _ (time_of_day_us now)); lia.
Qed.

Lemma sub_days_same_day now :
  valid now → sub_days now (midnight now) = 0.
Proof.
  intros Hv. rewrite sub_days_midnight by done. unfold toordinal. simpl. lia.
Qed.

End Dates.

(** ** The decision *)

Section Decision.

Variable py : version.
Variable srv : server.
Variable clock : nat -> datetime.

Implicit Types (cfs : list FieldValue.t) (s : state) (v : value).

Local Abbreviation now_text s := (VStr (strftime_midnight (clock (ticks s)))).

(** Branch 1: no truthy recorded value. *)
Lemma decision_first_time stage_order i1 i2 i3 cfs s :
  truthy (default VNone (value_at cfs i1)) = false →
  stage_decision py clock stage_order i1 i2 i3 cfs s
  = (Ok (set_value (set_value cfs i1 (VInt stage_order)) i2 (now_text s)), tick s).
Proof. unfold stage_decision. intros ->. reflexivity. Qed.

(** Branch 2: the recorded value equals the stage order. *)
Lemma decision_same_stage stage_order i1 i2 i3 cfs s v stored d :
  value_at cfs i1 = Some v → truthy v = true → int_eq stage_order v = true →
  value_at cfs i2 = Some (VStr stored) → strptime_midnight stored = Some d →
  stage_decision py clock stage_order i1 i2 i3 cfs s
  = (Ok (set_value cfs i3 (VInt (sub_days (clock (ticks s)) d))), tick s).
Proof.
  intros H1 Ht He H2 Hd.
  unfold stage_decision, getitem_FIELD_VALUE, strptime, bind.
  rewrite H1. simpl. rewrite Ht. simpl. rewrite He, H2. simpl.
  rewrite Hd. reflexivity.
Qed.

(** Branch 3: the stage order is greater than the recorded value. *)
Lemma decision_advanced stage_order i1 i2 i3 cfs s v :
  value_at cfs i1 = Some v → truthy v = true → int_eq stage_order v = false →
  int_gt py stage_order v = inr true →
  stage_decision py clock stage_order i1 i2 i3 cfs s
  = (Ok (set_value
           (set_value (set_value cfs i3 (VInt 0)) i2 (now_text s))
           i1 (VInt stage_order)), tick s).
Proof.
  intros H1 Ht He Hg.
  unfold stage_decision, getitem_FIELD_VALUE, bind.
  rewrite H1. simpl. rewrite Ht. simpl. rewrite He, Hg. reflexivity.
Qed.

(** Branch 4: neither equal nor greater. *)
Lemma decision_regressed stage_order i1 i2 i3 cfs s v :
  value_at cfs i1 = Some v → truthy v = true → int_eq stage_order v = false →
  int_gt py stage_order v = inr false →
  stage_decision py clock stage_order i1 i2 i3 cfs s = (Ok cfs, s).
Proof.
  intros H1 Ht He Hg.
  unfold stage_decision, getitem_FIELD_VALUE, bind.
  rewrite H1. simpl. rewrite Ht. simpl. rewrite He, Hg. reflexivity.
Qed.

Lemma entry_read_get_custom_field_ne cfs field_id default other default' :
  field_id ≠ other →
  entry_read (get_custom_field cfs field_id default).2 other default'
  = entry_read cfs other default'.
Proof.
  intros H. unfold entry_read, first_entry.
  by rewrite get_custom_field_find_ne.
Qed.

(** The three reads of lines 181-183: each reference points to the
    first entry of its id, which is the entry the opportunity came
    with, or the new one. *)
Lemma three_reads ids now cfs i1 c1 i2 c2 i3 c3 :
  distinct_ids ids →
  get_custom_field cfs (last_known_stage_id ids) VNone = (i1, c1) →
  get_custom_field c1 (last_time_stage_changed_id ids) now = (i2, c2) →
  get_custom_field c2 (days_in_current_stage_id ids) (VInt 0) = (i3, c3) →
  list_find (has_id (last_known_stage_id ids)) c3
    = Some (i1, entry_read cfs (last_known_stage_id ids) VNone) ∧
  list_find (has_id (last_time_stage_changed_id ids)) c3
    = Some (i2, entry_read cfs (last_time_stage_changed_id ids) now) ∧
  list_find (has_id (days_in_current_stage_id ids)) c3
    = Some (i3, entry_read cfs (days_in_current_stage_id ids) (VInt 0)).
Proof.
  intros (H12 & H13 & H23) E1 E2 E3.
  pose proof (get_custom_field_find cfs (last_known_stage_id ids) VNone) as F1.
  pose proof (get_custom_field_find c1 (last_time_stage_changed_id ids) now) as F2.
  pose proof (get_custom_field_find c2 (days_in_current_stage_id ids) (VInt 0)) as F3.
  destruct ids as [a b c]; simpl in *.
  pose proof (get_custom_field_find_ne cfs a VNone b H12) as N12.
  pose proof (get_custom_field_find_ne cfs a VNone c H13) as N13.
  pose proof (get_custom_field_find_ne c1 b now c H23) as N23.
  pose proof (get_custom_field_find_ne c1 b now a) as N21.
  pose proof (get_custom_field_find_ne c2 c (VInt 0) a) as N31.
  pose proof (get_custom_field_find_ne c2 c (VInt 0) b) as N32.
  rewrite E1 in *. rewrite E2 in *. rewrite E3 in *. simpl in *.
  split_and!.
  - rewrite N31, N21 by done. exact F1.
  - rewrite N32 by done. rewrite F2. do 2 f_equal.
    unfold entry_read, first_entry. by rewrite N12.
  - rewrite F3. do 2 f_equal.
    unfold entry_read, first_entry. by rewrite N23, N13.
Qed.

(** References to entries of different ids are different. *)
Lemma find_ne_index cfs a b i j f g :
  a ≠ b →
  list_find (has_id a) cfs = Some (i, f) →
  list_find (has_id b) cfs = Some (j, g) → i ≠ j.
Proof.
  intros Hab (Hf & Ha & _)%list_find_Some (Hg & Hb & _)%list_find_Some ->.
  unfold has_id in *. congruence.
Qed.

(** From the decision to the write: when the tracker returns, the
    opportunity goes to the store with the list the tracker left. *)
Lemma process_opportunity_sends ids stages opp stage_id stage s i cfs' s1 :
  Opportunity.STAGE_ID opp = Some stage_id → stage_id ≠ 0 →
  stages !! stage_id = Some stage →
  track_stage py clock ids (Stage.STAGE_ORDER stage) (Opportunity.CUSTOMFIELDS opp) s
    = (Ok (i, cfs'), s1) →
  trace s1 = trace s →
  ∃ r s', process_opportunity py srv clock ids stages opp s = (r, s') ∧
          sent s s' (Opportunity.with_CUSTOMFIELDS opp cfs').
Proof.
  intros Hid Hnz Hst Htr Htrace.
  unfold process_opportunity. rewrite Hid.
  destruct (stage_id =? 0) eqn:E; [lia|]. rewrite Hst.
  unfold bind at 1. rewrite Htr.
  destruct (bind _ _ s1) as [r s'] eqn:R. exists r, s'. split; [done|].
  unfold sent. rewrite <- Htrace. simpl.
  revert R.
  cbv [bind insightly_put api_error emit ret raise getitem_FIELD_VALUE].
  simpl. destruct (negb _).
  - intros [= <- <-]. simpl. rewrite <- app_assoc. simpl. eauto.
  - destruct (value_at cfs' i); intros [= <- <-]; simpl;
      rewrite <- ?app_assoc; simpl; eauto.
Qed.

End Decision.

(** ** The tracker on one opportunity *)

Section TrackerFacts.

Variable py : version.
Variable srv : server.
Variable clock : nat -> datetime.
Variable ids : field_ids.
Hypothesis ids_distinct : distinct_ids ids.

Implicit Types (cfs : list FieldValue.t) (s : state) (v : value).

Local Abbreviation lks := (last_known_stage_id ids).
Local Abbreviation lts := (last_time_stage_changed_id ids).
Local Abbreviation days := (days_in_current_stage_id ids).
Local Abbreviation now_text s := (VStr (strftime_midnight (clock (ticks s)))).

Lemma entry_read_value cfs field_id default :
  FieldValue.FIELD_VALUE (entry_read cfs field_id default)
  = match first_entry cfs field_id with
    | Some f => FieldValue.FIELD_VALUE f
    | None => match default with VNone => None | v => Some v end
    end.
Proof. unfold entry_read. by destruct (first_entry cfs field_id). Qed.

Lemma entry_read_value_None cfs field_id :
  FieldValue.FIELD_VALUE (entry_read cfs field_id VNone) = read cfs field_id.
Proof. rewrite entry_read_value. unfold read. by destruct (first_entry _ _). Qed.

Lemma entry_read_id cfs field_id default :
  FieldValue.CUSTOM_FIELD_ID (entry_read cfs field_id default) = field_id.
Proof.
  unfold entry_read, first_entry.
  destruct (list_find _ cfs) as [[i f]|] eqn:E; simpl; [|done].
  by apply list_find_Some in E as (_ & ? & _).
Qed.

(** The shape of [track_stage]: a clock reading, the three reads, the
    decision. *)
Lemma track_stage_reads stage_order cfs s :
  ∃ i1 i2 i3 c3,
    list_find (has_id lks) c3 = Some (i1, entry_read cfs lks VNone) ∧
    list_find (has_id lts) c3 = Some (i2, entry_read cfs lts (now_text s)) ∧
    list_find (has_id days) c3 = Some (i3, entry_read cfs days (VInt 0)) ∧
    (∀ other, entries c3 other
              = if decide (other = lks ∨ other = lts ∨ other = days)
                then Nat.max 1 (entries cfs other) else entries cfs other) ∧
    (is_Some (first_entry cfs lks) → is_Some (first_entry cfs lts) →
     is_Some (first_entry cfs days) → c3 = cfs) ∧
    track_stage py clock ids stage_order cfs s
    = match stage_decision py clock stage_order i1 i2 i3 c3 (tick s) with
      | (Ok c, s') => (Ok (i1, c), s')
      | (Raise e, s') => (Raise e, s')
      | (Timeout, s') => (Timeout, s')
      end.
Proof.
  unfold track_stage, bind, datetime_now. simpl.
  destruct (get_custom_field cfs lks VNone) as [i1 c1] eqn:E1.
  destruct (get_custom_field c1 lts (now_text s)) as [i2 c2] eqn:E2.
  destruct (get_custom_field c2 days (VInt 0)) as [i3 c3] eqn:E3.
  exists i1, i2, i3, c3.
  destruct (three_reads ids (now_text s) cfs i1 c1 i2 c2 i3 c3) as (F1 & F2 & F3);
    [done..|].
  split_and!; [done | done | done | | |].
  - intros other.
    pose proof (entries_get_custom_field cfs lks VNone other) as G1.
    pose proof (entries_get_custom_field c1 lts (now_text s) other) as G2.
    pose proof (entries_get_custom_field c2 days (VInt 0) other) as G3.
    pose proof (entries_get_custom_field cfs lks VNone lts) as G4.
    pose proof (entries_get_custom_field cfs lks VNone days) as G5.
    pose proof (entries_get_custom_field c1 lts (now_text s) days) as G6.
    rewrite E1 in G1, G4, G5. rewrite E2 in G2, G6. rewrite E3 in G3.
    simpl in *. destruct ids_distinct as (H12 & H13 & H23).
    rewrite G3.
    repeat case_decide; subst; try congruence; try lia;
      destruct_or?; (congruence || tauto).
  - unfold first_entry. intros [f1 H1] [f2 H2] [f3 H3].
    destruct (list_find (has_id lks) cfs) as [[j1 g1]|] eqn:L1; [|done].
    rewrite (get_custom_field_found _ _ _ _ _ L1) in E1. simplify_eq.
    destruct (list_find (has_id lts) c1) as [[j2 g2]|] eqn:L2; [|done].
    rewrite (get_custom_field_found _ _ _ _ _ L2) in E2. simplify_eq.
    destruct (list_find (has_id days) c2) as [[j3 g3]|] eqn:L3; [|done].
    rewrite (get_custom_field_found _ _ _ _ _ L3) in E3. by simplify_eq.
  - reflexivity.
Qed.

(** The decision only writes values: the ids of the entries, and so
    the number of entries of each id, stay. *)
Lemma stage_decision_entries stage_order i1 i2 i3 cfs s cfs' s' other :
  stage_decision py clock stage_order i1 i2 i3 cfs s = (Ok cfs', s') →
  entries cfs' other = entries cfs other.
Proof.
  unfold stage_decision, getitem_FIELD_VALUE, strptime, bind, ret, raise,
    datetime_now.
  intros H. repeat case_match; simplify_eq; by rewrite ?entries_set_value.
Qed.

(** The decision does not touch the trace. *)
Lemma stage_decision_trace stage_order i1 i2 i3 cfs s r s' :
  stage_decision py clock stage_order i1 i2 i3 cfs s = (r, s') →
  trace s' = trace s.
Proof.
  unfold stage_decision, getitem_FIELD_VALUE, strptime, bind, ret, raise,
    datetime_now.
  intros H. repeat case_match; by simplify_eq.
Qed.

Lemma track_stage_trace stage_order cfs s r s' :
  track_stage py clock ids stage_order cfs s = (r, s') → trace s' = trace s.
Proof.
  destruct (track_stage_reads stage_order cfs s)
    as (i1 & i2 & i3 & c3 & _ & _ & _ & _ & _ & ->).
  destruct (stage_decision _ _ _ _ _ _ _ _) as [r0 s0] eqn:E.
  apply stage_decision_trace in E.
  destruct r0; intros [= <- <-]; done.
Qed.

End TrackerFacts.

(** ** The four branches, on the opportunity that goes to the store *)

Section Branches.

Variable py : version.
Variable srv : server.
Variable clock : nat -> datetime.
Variable ids : field_ids.
Hypothesis ids_distinct : distinct_ids ids.

Implicit Types (cfs : list FieldValue.t) (s : state) (v : value)
  (opp : Opportunity.t) (stages : gmap Z Stage.t).

Local Abbreviation lks := (last_known_stage_id ids).
Local Abbreviation lts := (last_time_stage_changed_id ids).
Local Abbreviation days := (days_in_current_stage_id ids).

(** Simplifies the first entry of an id after writes through the
    three references. *)
Ltac after_writes F1 F2 F3 :=
  pose proof (find_ne_index _ _ _ _ _ _ _ (proj1 ids_distinct) F1 F2);
  pose proof (find_ne_index _ _ _ _ _ _ _ (proj1 (proj2 ids_distinct)) F1 F3);
  pose proof (find_ne_index _ _ _ _ _ _ _ (proj2 (proj2 ids_distinct)) F2 F3);
  unfold read, first_entry;
  rewrite ?set_value_find, ?F1, ?F2, ?F3; simpl;
  repeat case_decide; try congruence; try done.

Lemma track_first_time stage_order cfs s :
  truthy (default VNone (read cfs lks)) = false →
  ∃ i cfs',
    track_stage py clock ids stage_order cfs s = (Ok (i, cfs'), tick (tick s)) ∧
    read cfs' lks = Some (VInt stage_order) ∧
    read cfs' lts = Some (today clock s) ∧
    first_entry cfs' days = Some (entry_read cfs days (VInt 0)).
Proof.
  intros Hfalsy.
  destruct (track_stage_reads py clock ids ids_distinct stage_order cfs s)
    as (i1 & i2 & i3 & c3 & F1 & F2 & F3 & _ & _ & ->).
  rewrite decision_first_time.
  2:{ rewrite (find_value_at _ _ _ _ F1), entry_read_value_None. done. }
  eexists _, _. split; [reflexivity|].
  split_and!; after_writes F1 F2 F3.
Qed.

Lemma track_same_stage stage_order cfs s v stored d :
  read cfs lks = Some v → truthy v = true → int_eq stage_order v = true →
  read cfs lts = Some (VStr stored) → strptime_midnight stored = Some d →
  ∃ i cfs',
    track_stage py clock ids stage_order cfs s = (Ok (i, cfs'), tick (tick s)) ∧
    read cfs' days = Some (VInt (sub_days (clock (S (ticks s))) d)) ∧
    first_entry cfs' lks = first_entry cfs lks ∧
    first_entry cfs' lts = first_entry cfs lts.
Proof.
  intros Hv Ht He Hs Hd.
  destruct (track_stage_reads py clock ids ids_distinct stage_order cfs s)
    as (i1 & i2 & i3 & c3 & F1 & F2 & F3 & _ & _ & ->).
  erewrite decision_same_stage; [|try done..].
  2:{ by rewrite (find_value_at _ _ _ _ F1), entry_read_value_None. }
  2:{ rewrite (find_value_at _ _ _ _ F2), entry_read_value.
      revert Hs. unfold read. by destruct (first_entry cfs lts). }
  eexists _, _. split; [reflexivity|].
  split_and!; after_writes F1 F2 F3.
  - unfold entry_read. revert Hv. unfold read, first_entry.
    by destruct (list_find (has_id lks) cfs).
  - unfold entry_read. revert Hs. unfold read, first_entry.
    by destruct (list_find (has_id lts) cfs).
Qed.

Lemma track_advanced stage_order cfs s v :
  read cfs lks = Some v → truthy v = true → int_eq stage_order v = false →
  int_gt py stage_order v = inr true →
  ∃ i cfs',
    track_stage py clock ids stage_order cfs s = (Ok (i, cfs'), tick (tick s)) ∧
    read cfs' days = Some (VInt 0) ∧
    read cfs' lts = Some (today clock s) ∧
    read cfs' lks = Some (VInt stage_order).
Proof.
  intros Hv Ht He Hg.
  destruct (track_stage_reads py clock ids ids_distinct stage_order cfs s)
    as (i1 & i2 & i3 & c3 & F1 & F2 & F3 & _ & _ & ->).
  erewrite decision_advanced; [|try done..].
  2:{ by rewrite (find_value_at _ _ _ _ F1), entry_read_value_None. }
  eexists _, _. split; [reflexivity|].
  split_and!; after_writes F1 F2 F3.
Qed.

Lemma track_regressed stage_order cfs s v :
  read cfs lks = Some v → truthy v = true → int_eq stage_order v = false →
  int_gt py stage_order v = inr false →
  ∃ i cfs',
    track_stage py clock ids stage_order cfs s = (Ok (i, cfs'), tick s) ∧
    first_entry cfs' lks = first_entry cfs lks ∧
    first_entry cfs' lts
      = Some (entry_read cfs lts (VStr (strftime_midnight (clock (ticks s))))) ∧
    first_entry cfs' days = Some (entry_read cfs days (VInt 0)) ∧
    (is_Some (first_entry cfs lts) → is_Some (first_entry cfs days) → cfs' = cfs).
Proof.
  intros Hv Ht He Hg.
  destruct (track_stage_reads py clock ids ids_distinct stage_order cfs s)
    as (i1 & i2 & i3 & c3 & F1 & F2 & F3 & _ & Hsame & ->).
  erewrite decision_regressed; [|try done..].
  2:{ by rewrite (find_value_at _ _ _ _ F1), entry_read_value_None. }
  eexists _, _. split; [reflexivity|].
  split_and!; try after_writes F1 F2 F3.
  - unfold entry_read. revert Hv. unfold read, first_entry.
    by destruct (list_find (has_id lks) cfs).
  - apply Hsame. revert Hv. unfold read.
    destruct (first_entry cfs lks); [eauto | done].
Qed.

End Branches.

(** ** What goes to the store, branch by branch *)

Section Persisted.

Variable py : version.
Variable srv : server.
Variable clock : nat -> datetime.
Variable ids : field_ids.
Hypothesis ids_distinct : distinct_ids ids.

Implicit Types (cfs : list FieldValue.t) (s : state) (v : value)
  (opp : Opportunity.t) (stages : gmap Z Stage.t).

Local Abbreviation lks := (last_known_stage_id ids).
Local Abbreviation lts := (last_time_stage_changed_id ids).
Local Abbreviation days := (days_in_current_stage_id ids).

(** An opportunity whose stage resolves in the catalog, and on which
    the tracker returns, goes to the store with the list the tracker
    left; [Q] is any property of the opportunity sent. *)
Lemma tracked_then_sent (Q : Opportunity.t → Prop) stages opp stage_id stage s :
  Opportunity.STAGE_ID opp = Some stage_id → stage_id ≠ 0 →
  stages !! stage_id = Some stage →
  (∃ i cfs' s1,
      track_stage py clock ids (Stage.STAGE_ORDER stage)
        (Opportunity.CUSTOMFIELDS opp) s = (Ok (i, cfs'), s1) ∧
      Q (Opportunity.with_CUSTOMFIELDS opp cfs')) →
  ∃ r s' opp',
    process_opportunity py srv clock ids stages opp s = (r, s') ∧
    sent s s' opp' ∧ Q opp'.
Proof.
  intros Hid Hnz Hst (i & cfs' & s1 & Htr & HQ).
  destruct (process_opportunity_sends py srv clock ids stages opp stage_id
              stage s i cfs' s1) as (r & s' & Hp & Hsent); try done.
  { by eapply track_stage_trace. }
  by exists r, s', (Opportunity.with_CUSTOMFIELDS opp cfs').
Qed.

(** C4.  An opportunity whose stage resolves and whose
    [last_known_stage] field has no recorded value (no entry, an entry
    without a value, or a null value) goes to the store with
    [last_known_stage] equal to the current stage order and
    [last_time_stage_changed] equal to today's midnight text;
    [days_in_current_stage] is the entry the opportunity came with,
    value and all, or an entry with the value 0 when it had none: it is
    not recomputed. *)
Theorem first_observation_records_stage_and_day stages opp stage_id stage s :
  Opportunity.STAGE_ID opp = Some stage_id → stage_id ≠ 0 →
  stages !! stage_id = Some stage →
  (read (Opportunity.CUSTOMFIELDS opp) lks = None
   ∨ read (Opportunity.CUSTOMFIELDS opp) lks = Some VNone) →
  ∃ r s' opp',
    process_opportunity py srv clock ids stages opp s = (r, s') ∧
    sent s s' opp' ∧
    (let cfs' := Opportunity.CUSTOMFIELDS opp' in
     read cfs' lks = Some (VInt (Stage.STAGE_ORDER stage)) ∧
     read cfs' lts = Some (today clock s) ∧
     first_entry cfs' days
     = Some (match first_entry (Opportunity.CUSTOMFIELDS opp) days with
             | Some f => f
             | None => FieldValue.mk days (Some (VInt 0))
             end) ∧
     read cfs' days
     = match first_entry (Opportunity.CUSTOMFIELDS opp) days with
       | Some f => FieldValue.FIELD_VALUE f
       | None => Some (VInt 0)
       end).
Proof.
  intros Hid Hnz Hst Hnone.
  cbv zeta. apply (tracked_then_sent _ stages opp stage_id stage s Hid Hnz Hst).
  destruct (track_first_time py clock ids ids_distinct (Stage.STAGE_ORDER stage)
              (Opportunity.CUSTOMFIELDS opp) s) as (i & cfs' & Htr & H1 & H2 & H3);
    [by destruct Hnone as [-> | ->] |].
  exists i, cfs', (tick (tick s)). simpl.
  unfold read at 3. rewrite H3. unfold entry_read, new_field.
  split_and!; try done;
    by destruct (first_entry (Opportunity.CUSTOMFIELDS opp) days).
Qed.

(** C10.  A recorded [last_known_stage] value that is present but falsy
    (0, the empty string, [False]) sends the opportunity through the
    first-time branch: it goes to the store with [last_known_stage]
    overwritten by the current stage order and
    [last_time_stage_changed] reset to today, and with
    [days_in_current_stage] as it was. *)
Theorem falsy_recorded_value_is_first_time stages opp stage_id stage s v :
  Opportunity.STAGE_ID opp = Some stage_id → stage_id ≠ 0 →
  stages !! stage_id = Some stage →
  read (Opportunity.CUSTOMFIELDS opp) lks = Some v → truthy v = false →
  ∃ r s' opp',
    process_opportunity py srv clock ids stages opp s = (r, s') ∧
    sent s s' opp' ∧
    (let cfs' := Opportunity.CUSTOMFIELDS opp' in
     read cfs' lks = Some (VInt (Stage.STAGE_ORDER stage)) ∧
     read cfs' lts = Some (today clock s) ∧
     first_entry cfs' days
     = Some (entry_read (Opportunity.CUSTOMFIELDS opp) days (VInt 0))).
Proof.
  intros Hid Hnz Hst Hv Hfalsy.
  cbv zeta. apply (tracked_then_sent _ stages opp stage_id stage s Hid Hnz Hst).
  destruct (track_first_time py clock ids ids_distinct (Stage.STAGE_ORDER stage)
              (Opportunity.CUSTOMFIELDS opp) s) as (i & cfs' & Htr & H);
    [by rewrite Hv | eauto].
Qed.

(** C5, amended.  An opportunity whose stage resolves, whose recorded
    [last_known_stage] is truthy and equal to the current stage order,
    and whose stored [last_time_stage_changed] reads as a date, goes to
    the store with [days_in_current_stage] equal to the number of
    calendar days from the stored date to the day of the clock
    reading, and with the entries of [last_known_stage] and
    [last_time_stage_changed] as they were. *)
Theorem same_stage_recounts_days stages opp stage_id stage s v stored d :
  Opportunity.STAGE_ID opp = Some stage_id → stage_id ≠ 0 →
  stages !! stage_id = Some stage →
  valid (clock (S (ticks s))) →
  read (Opportunity.CUSTOMFIELDS opp) lks = Some v → truthy v = true →
  int_eq (Stage.STAGE_ORDER stage) v = true →
  read (Opportunity.CUSTOMFIELDS opp) lts = Some (VStr stored) →
  strptime_midnight stored = Some d →
  ∃ r s' opp',
    process_opportunity py srv clock ids stages opp s = (r, s') ∧
    sent s s' opp' ∧
    (let cfs' := Opportunity.CUSTOMFIELDS opp' in
     read cfs' days
     = Some (VInt (toordinal (clock (S (ticks s))) - toordinal d)) ∧
     first_entry cfs' lks = first_entry (Opportunity.CUSTOMFIELDS opp) lks ∧
     first_entry cfs' lts = first_entry (Opportunity.CUSTOMFIELDS opp) lts).
Proof.
  intros Hid Hnz Hst Hvalid Hv Ht He Hs Hd.
  cbv zeta. apply (tracked_then_sent _ stages opp stage_id stage s Hid Hnz Hst).
  destruct (track_same_stage py clock ids ids_distinct (Stage.STAGE_ORDER stage)
              (Opportunity.CUSTOMFIELDS opp) s v stored d)
    as (i & cfs' & Htr & H); [done..|].
  rewrite sub_days_midnight in H by eauto using strptime_is_midnight.
  eauto.
Qed.

(** C6, amended.  An opportunity whose stage resolves and whose recorded
    [last_known_stage] is a truthy number below the current stage order
    goes to the store with [days_in_current_stage] 0,
    [last_time_stage_changed] today and [last_known_stage] the current
    stage order. *)
Theorem advance_resets_days stages opp stage_id stage s v k :
  Opportunity.STAGE_ID opp = Some stage_id → stage_id ≠ 0 →
  stages !! stage_id = Some stage →
  read (Opportunity.CUSTOMFIELDS opp) lks = Some v → truthy v = true →
  as_int v = Some k → k < Stage.STAGE_ORDER stage →
  ∃ r s' opp',
    process_opportunity py srv clock ids stages opp s = (r, s') ∧
    sent s s' opp' ∧
    (let cfs' := Opportunity.CUSTOMFIELDS opp' in
     read cfs' days = Some (VInt 0) ∧
     read cfs' lts = Some (today clock s) ∧
     read cfs' lks = Some (VInt (Stage.STAGE_ORDER stage))).
Proof.
  intros Hid Hnz Hst Hv Ht Hk Hlt.
  cbv zeta. apply (tracked_then_sent _ stages opp stage_id stage s Hid Hnz Hst).
  destruct (track_advanced py clock ids ids_distinct (Stage.STAGE_ORDER stage)
              (Opportunity.CUSTOMFIELDS opp) s v)
    as (i & cfs' & Htr & H); [done | done | | | eauto].
  - unfold int_eq. rewrite Hk. lia.
  - unfold int_gt. rewrite Hk. f_equal. lia.
Qed.

(** C7, amended.  An opportunity whose stage resolves and whose recorded
    [last_known_stage] is a truthy number above the current stage order
    goes to the store all the same, with the [last_known_stage] entry
    as it was and with the entries of [last_time_stage_changed] and
    [days_in_current_stage] as they were, or new with their default
    when the opportunity had none; when it had all three, the
    opportunity sent is the opportunity received. *)
Theorem regression_writes_nothing stages opp stage_id stage s v k :
  Opportunity.STAGE_ID opp = Some stage_id → stage_id ≠ 0 →
  stages !! stage_id = Some stage →
  read (Opportunity.CUSTOMFIELDS opp) lks = Some v → truthy v = true →
  as_int v = Some k → Stage.STAGE_ORDER stage < k →
  ∃ r s' opp',
    process_opportunity py srv clock ids stages opp s = (r, s') ∧
    sent s s' opp' ∧
    (let cfs := Opportunity.CUSTOMFIELDS opp in
     let cfs' := Opportunity.CUSTOMFIELDS opp' in
     first_entry cfs' lks = first_entry cfs lks ∧
     first_entry cfs' lts
     = Some (entry_read cfs lts (VStr (strftime_midnight (clock (ticks s))))) ∧
     first_entry cfs' days = Some (entry_read cfs days (VInt 0)) ∧
     (is_Some (first_entry cfs lts) → is_Some (first_entry cfs days) →
      opp' = opp)).
Proof.
  intros Hid Hnz Hst Hv Ht Hk Hlt.
  cbv zeta. apply (tracked_then_sent _ stages opp stage_id stage s Hid Hnz Hst).
  destruct (track_regressed py clock ids ids_distinct (Stage.STAGE_ORDER stage)
              (Opportunity.CUSTOMFIELDS opp) s v)
    as (i & cfs' & Htr & H1 & H2 & H3 & H4); [done | done | | |].
  - unfold int_eq. rewrite Hk. lia.
  - unfold int_gt. rewrite Hk. f_equal. lia.
  - exists i, cfs', (tick s). split_and!; try done.
    intros Hl Hd. rewrite (H4 Hl Hd). by destruct opp.
Qed.

End Persisted.

(** ** One entry per field, and a second run on the same day *)

Section Invariants.

Variable py : version.
Variable srv : server.
Variable clock : nat -> datetime.
Variable ids : field_ids.

Implicit Types (cfs : list FieldValue.t) (s : state) (v : value)
  (opp : Opportunity.t) (stages : gmap Z Stage.t).

Local Abbreviation lks := (last_known_stage_id ids).
Local Abbreviation lts := (last_time_stage_changed_id ids).
Local Abbreviation days := (days_in_current_stage_id ids).

Local Abbreviation resolved := (resolved ids).

(** The tracker adds an entry for a resolved id that has none, and
    neither adds nor removes any other. *)
Lemma track_stage_entries stage_order cfs s i cfs' s' field_id :
  track_stage py clock ids stage_order cfs s = (Ok (i, cfs'), s') →
  resolved field_id →
  entries cfs' field_id = Nat.max 1 (entries cfs field_id).
Proof.
  unfold resolved, track_stage, bind, datetime_now.
  destruct ids as [a b c]. simpl.
  destruct (get_custom_field cfs a VNone) as [i1 c1] eqn:E1.
  destruct (get_custom_field c1 b _) as [i2 c2] eqn:E2.
  destruct (get_custom_field c2 c (VInt 0)) as [i3 c3] eqn:E3.
  destruct (stage_decision _ _ _ _ _ _ _ _) as [[c'| |] s0] eqn:D;
    intros [= <- <- <-].
  intros Hres.
  rewrite (stage_decision_entries _ _ _ _ _ _ _ _ _ _ _ D).
  pose proof (entries_get_custom_field cfs a VNone) as G1.
  pose proof (entries_get_custom_field c1 b
                (VStr (strftime_midnight (clock (ticks s))))) as G2.
  pose proof (entries_get_custom_field c2 c (VInt 0) field_id) as G3.
  rewrite E1 in G1. rewrite E2 in G2. rewrite E3 in G3. simpl in *.
  rewrite G3, !G2, !G1.
  destruct Hres as [-> | [-> | ->]]; repeat case_decide; subst;
    try congruence; lia.
Qed.

(** C9, amended.  On an opportunity that is processed (its stage
    resolves and the body of the loop runs to its end), each resolved
    field id has afterwards as many entries as before, and one when it
    had none: exactly one entry whenever the opportunity came with at
    most one, the duplicates it came with otherwise. *)
Theorem processed_opportunity_keeps_entries stages opp stage_id stage s fl opp' s'
    field_id :
  Opportunity.STAGE_ID opp = Some stage_id → stage_id ≠ 0 →
  stages !! stage_id = Some stage →
  process_opportunity py srv clock ids stages opp s = (Ok (fl, opp'), s') →
  resolved field_id →
  entries (Opportunity.CUSTOMFIELDS opp') field_id
  = Nat.max 1 (entries (Opportunity.CUSTOMFIELDS opp) field_id).
Proof.
  intros Hid Hnz Hst Hp Hres. revert Hp.
  unfold process_opportunity. rewrite Hid.
  destruct (stage_id =? 0) eqn:E; [lia|]. rewrite Hst.
  unfold bind at 1.
  destruct (track_stage _ _ _ _ _ _) as [[[i cfs']| |] s1] eqn:T; try done.
  cbv [bind insightly_put api_error emit ret raise getitem_FIELD_VALUE].
  simpl. destruct (negb _); [done|].
  destruct (value_at cfs' i); intros [= <- <- <-]. simpl.
  by eapply track_stage_entries.
Qed.

End Invariants.

Section SameDay.

Variable py : version.
Variable clock : nat -> datetime.
Variable ids : field_ids.
Hypothesis ids_distinct : distinct_ids ids.
Hypothesis clock_valid : ∀ n, valid (clock n).
(** All readings fall on one calendar day. *)
Hypothesis same_day : ∀ n m, midnight (clock n) = midnight (clock m).

Implicit Types (cfs c : list FieldValue.t) (s : state) (v : value).

Local Abbreviation lks := (last_known_stage_id ids).
Local Abbreviation lts := (last_time_stage_changed_id ids).
Local Abbreviation days := (days_in_current_stage_id ids).

Lemma strftime_same_day n m :
  strftime_midnight (clock n) = strftime_midnight (clock m).
Proof.
  change (strftime_midnight (midnight (clock n))
          = strftime_midnight (midnight (clock m))).
  by rewrite (same_day n m).
Qed.

Lemma toordinal_same_day n m : toordinal (clock n) = toordinal (clock m).
Proof.
  change (toordinal (midnight (clock n)) = toordinal (midnight (clock m))).
  by rewrite (same_day n m).
Qed.

Lemma sub_days_same_date n m d :
  midnight d = d → sub_days (clock n) d = sub_days (clock m) d.
Proof.
  intros Hd. rewrite !sub_days_midnight by done.
  by rewrite (toordinal_same_day n m).
Qed.

(** With all three entries there, the reads add nothing. *)
Lemma track_stage_present stage_order c s i1 e1 i2 e2 i3 e3 :
  list_find (has_id lks) c = Some (i1, e1) →
  list_find (has_id lts) c = Some (i2, e2) →
  list_find (has_id days) c = Some (i3, e3) →
  track_stage py clock ids stage_order c s
  = match stage_decision py clock stage_order i1 i2 i3 c (tick s) with
    | (Ok c', s') => (Ok (i1, c'), s')
    | (Raise e, s') => (Raise e, s')
    | (Timeout, s') => (Timeout, s')
    end.
Proof.
  intros F1 F2 F3. unfold track_stage, bind, datetime_now. simpl.
  rewrite (get_custom_field_found _ _ _ _ _ F1).
  rewrite (get_custom_field_found _ _ _ _ _ F2).
  rewrite (get_custom_field_found _ _ _ _ _ F3).
  reflexivity.
Qed.

(** A list whose [last_known_stage] is the stage order and whose
    [last_time_stage_changed] is today is a fixed point of the tracker,
    when its [days_in_current_stage] is 0 or the stage order is 0. *)
Lemma settled stage_order c s n i1 i2 i3 e3 :
  list_find (has_id lks) c
    = Some (i1, FieldValue.mk lks (Some (VInt stage_order))) →
  list_find (has_id lts) c
    = Some (i2, FieldValue.mk lts (Some (VStr (strftime_midnight (clock n))))) →
  list_find (has_id days) c = Some (i3, e3) →
  (stage_order ≠ 0 → FieldValue.FIELD_VALUE e3 = Some (VInt 0)) →
  ∃ s', track_stage py clock ids stage_order c s = (Ok (i1, c), s').
Proof.
  intros F1 F2 F3 Hdays.
  rewrite (track_stage_present _ _ _ _ _ _ _ _ _ F1 F2 F3).
  pose proof (find_value_at _ _ _ _ F1) as V1.
  pose proof (find_value_at _ _ _ _ F2) as V2.
  pose proof (find_value_at _ _ _ _ F3) as V3. simpl in *.
  destruct (decide (stage_order = 0)) as [->|Hnz].
  - rewrite decision_first_time by (by rewrite V1).
    rewrite (set_value_same _ _ _ V1).
    rewrite (strftime_same_day _ n), (set_value_same _ _ _ V2). eauto.
  - erewrite decision_same_stage with (d := midnight (clock n));
      [| exact V1 | | | exact V2 | ].
    + rewrite (sub_days_same_date _ n) by done.
      rewrite sub_days_same_day by done.
      rewrite set_value_same; [eauto|]. by rewrite V3, Hdays.
    + simpl. by apply negb_true_iff, Z.eqb_neq.
    + unfold int_eq. simpl. apply Z.eqb_refl.
    + by apply strptime_strftime.
Qed.

Lemma decision_twice stage_order c3 s c s1 i1 e1 i2 e2 i3 e3 :
  list_find (has_id lks) c3 = Some (i1, e1) →
  list_find (has_id lts) c3 = Some (i2, e2) →
  list_find (has_id days) c3 = Some (i3, e3) →
  (truthy (default VNone (FieldValue.FIELD_VALUE e1)) = false →
   stage_order ≠ 0 → FieldValue.FIELD_VALUE e3 = Some (VInt 0)) →
  stage_decision py clock stage_order i1 i2 i3 c3 s = (Ok c, s1) →
  ∃ s2, track_stage py clock ids stage_order c s1 = (Ok (i1, c), s2).
Proof.
  intros F1 F2 F3 Hdays.
  pose proof (find_ne_index _ _ _ _ _ _ _ (proj1 ids_distinct) F1 F2) as N12.
  pose proof (find_ne_index _ _ _ _ _ _ _ (proj1 (proj2 ids_distinct)) F1 F3) as N13.
  pose proof (find_ne_index _ _ _ _ _ _ _ (proj2 (proj2 ids_distinct)) F2 F3) as N23.
  pose proof (find_value_at _ _ _ _ F1) as V1.
  pose proof (find_value_at _ _ _ _ F2) as V2.
  pose proof (find_value_at _ _ _ _ F3) as V3.
  unfold stage_decision.
  destruct (truthy (default VNone (value_at c3 i1))) eqn:T.
  - destruct (FieldValue.FIELD_VALUE e1) as [v|] eqn:E1;
      rewrite V1 in T; simpl in T; [|done].
    unfold getitem_FIELD_VALUE, bind. rewrite V1. simpl.
    destruct (int_eq stage_order v) eqn:E.
    + destruct (FieldValue.FIELD_VALUE e2) as [w|] eqn:E2;
        rewrite V2; simpl; [|done].
      unfold strptime. destruct w as [| |?|stored]; try done.
      destruct (strptime_midnight stored) as [d|] eqn:P; [|done].
      simpl. intros [= <- <-].
      set (n := sub_days (clock (ticks s)) d).
      assert (list_find (has_id lks) (set_value c3 i3 (VInt n)) = Some (i1, e1))
        as G1.
      { rewrite set_value_find, F1. simpl. by rewrite decide_False. }
      assert (list_find (has_id lts) (set_value c3 i3 (VInt n)) = Some (i2, e2))
        as G2.
      { rewrite set_value_find, F2. simpl. by rewrite decide_False. }
      assert (list_find (has_id days) (set_value c3 i3 (VInt n))
              = Some (i3, FieldValue.mk days (Some (VInt n)))) as G3.
      { rewrite set_value_find, F3. simpl. by rewrite decide_True. }
      rewrite (track_stage_present _ _ _ _ _ _ _ _ _ G1 G2 G3).
      rewrite (decision_same_stage py clock stage_order i1 i2 i3 _ _ v stored d);
        [ | by rewrite (find_value_at _ _ _ _ G1) | done | done
          | by rewrite (find_value_at _ _ _ _ G2) | done ].
      simpl. rewrite (sub_days_same_date _ (ticks s))
        by eauto using strptime_is_midnight.
      rewrite set_value_same; [eauto|].
      by rewrite (find_value_at _ _ _ _ G3).
    + destruct (int_gt py stage_order v) as [e|[|]] eqn:G; [done| |].
      * simpl. intros [= <- <-].
        eapply (settled _ _ _ (ticks s) i1 i2 i3).
        1-3: rewrite !set_value_find, ?F1, ?F2, ?F3; simpl;
             repeat case_decide; try congruence; reflexivity.
        done.
      * simpl. intros [= <- <-].
        rewrite (track_stage_present _ _ _ _ _ _ _ _ _ F1 F2 F3).
        erewrite decision_regressed; try done; eauto.
  - simpl. intros [= <- <-].
    eapply (settled _ _ _ (ticks s) i1 i2 i3).
    1-3: rewrite !set_value_find, ?F1, ?F2, ?F3; simpl;
         repeat case_decide; try congruence; reflexivity.
    intros Hnz. apply Hdays; [|done]. by rewrite <- V1.
Qed.

(** C8, amended.  With all clock readings on one day, a second
    application of the tracker to the list the first one left returns
    that same list, provided that, where the first application finds no
    truthy [last_known_stage] and the stage order is not 0, the
    opportunity has no [days_in_current_stage] entry or has the value 0
    in it. *)
Theorem tracker_idempotent_within_a_day stage_order cfs s i cfs1 s1 :
  (truthy (default VNone (read cfs lks)) = false → stage_order ≠ 0 →
   first_entry cfs days = None ∨ read cfs days = Some (VInt 0)) →
  track_stage py clock ids stage_order cfs s = (Ok (i, cfs1), s1) →
  ∃ s2, track_stage py clock ids stage_order cfs1 s1 = (Ok (i, cfs1), s2).
Proof.
  intros Hdays.
  destruct (track_stage_reads py clock ids ids_distinct stage_order cfs s)
    as (i1 & i2 & i3 & c3 & F1 & F2 & F3 & _ & _ & ->).
  destruct (stage_decision _ _ _ _ _ _ _ _) as [[c| |] s0] eqn:D;
    intros [= <- <- <-].
  eapply decision_twice; [exact F1 | exact F2 | exact F3 | | exact D].
  rewrite entry_read_value_None. intros Hf Hnz.
  rewrite entry_read_value. unfold read in *.
  destruct (Hdays Hf Hnz) as [-> | H]; [done|].
  by destruct (first_entry cfs days).
Qed.

End SameDay.

(** ** The paginated fetch *)

Section Paging.

Variable srv : server.
Variable page_size : nat.
Variable items : list Opportunity.t.
Hypothesis srv_paged : opportunities srv = paged page_size items.
Hypothesis page_size_pos : (0 < page_size)%nat.

(** One iteration of the loop against the paginated server. *)
Lemma get_all_loop_step fuel url results skip s :
  insightly_get_all_loop srv (S fuel) url results skip s
  = let results' := results ++ take page_size (drop skip items) in
    let s' := mk_state (trace s ++ [GetPage url skip]) (ticks s) in
    if Z.of_nat (length items) <=? Z.of_nat (length results')
    then (Ok results', s')
    else insightly_get_all_loop srv fuel url results'
           (skip + length results') s'.
Proof.
  simpl. unfold bind, emit. rewrite srv_paged.
  unfold paged, X_Total_Count, ret. simpl.
  by destruct (_ <=? _).
Qed.

(** Once the offset has run ahead of the items collected, no later
    page closes the gap: the loop cannot reach the total. *)
Lemma get_all_loop_stuck fuel url results skip s :
  (length results + page_size ≤ skip)%nat →
  (length results < length items)%nat →
  (insightly_get_all_loop srv fuel url results skip s).1 = Timeout.
Proof.
  revert results skip s.
  induction fuel as [|fuel IH]; intros results skip s Hskip Hlen; [done|].
  rewrite get_all_loop_step. cbv zeta.
  assert (length (results ++ take page_size (drop skip items)) < length items)%nat
    as Hlen'.
  { rewrite length_app, length_take, length_drop. lia. }
  rewrite (proj2 (Z.leb_gt _ _)) by lia.
  apply IH; [|done].
  rewrite length_app, length_take, length_drop in *. lia.
Qed.

(** C3 on the code: with more than two pages to fetch the loop never
    returns, whatever the number of iterations it is given.  The offset
    grows by the number of items collected so far instead of being set
    to it: after offsets 0 and [page_size] the third request asks for
    offset [3 * page_size]. *)
Theorem get_all_never_returns_beyond_two_pages fuel url s :
  (2 * page_size < length items)%nat →
  (insightly_get_all srv fuel url s).1 = Timeout.
Proof.
  intros Hlong. unfold insightly_get_all.
  destruct fuel as [|fuel]; [done|].
  rewrite get_all_loop_step. cbv zeta. rewrite drop_0. simpl app.
  rewrite (proj2 (Z.leb_gt _ _)) by (rewrite length_take; lia).
  destruct fuel as [|fuel]; [done|].
  rewrite get_all_loop_step. cbv zeta.
  rewrite (proj2 (Z.leb_gt _ _))
    by (rewrite length_app, !length_take, length_drop; lia).
  apply get_all_loop_stuck;
    rewrite ?length_app, ?length_take, ?length_drop; lia.
Qed.

(** With at most two pages to fetch the loop returns the result set. *)
Lemma get_all_two_pages fuel url s :
  (length items ≤ 2 * page_size)%nat →
  (insightly_get_all srv (S (S fuel)) url s).1 = Ok items.
Proof.
  intros Hshort. unfold insightly_get_all.
  rewrite get_all_loop_step. cbv zeta. rewrite drop_0. simpl app.
  destruct (decide (length items ≤ page_size)%nat) as [Hle|Hgt].
  - rewrite (proj2 (Z.leb_le _ _)) by (rewrite length_take; lia).
    simpl. f_equal. apply take_ge. lia.
  - rewrite (proj2 (Z.leb_gt _ _)) by (rewrite length_take; lia).
    rewrite get_all_loop_step. cbv zeta.
    assert (length (take page_size items) = page_size) as -> .
    { rewrite length_take. lia. }
    simpl Nat.add.
    rewrite (take_ge (drop page_size items)) by (rewrite length_drop; lia).
    rewrite take_drop.
    by rewrite (proj2 (Z.leb_le _ _)) by lia.
Qed.

End Paging.

(** ** The run *)

Section Orchestrator.

Variable py : version.
Variable srv : server.
Variable clock : nat -> datetime.

Implicit Types (s : state) (opp : Opportunity.t) (stages : gmap Z Stage.t).

(** An opportunity with an unknown stage: an error record, and the
    [return]. *)
Lemma process_opportunity_unknown_stage ids stages opp stage_id s :
  Opportunity.STAGE_ID opp = Some stage_id → stage_id ≠ 0 →
  stages !! stage_id = None →
  process_opportunity py srv clock ids stages opp s
  = (Ok (Return, opp),
     mk_state (trace s ++ [Log ERROR (NoStageFound stage_id)]) (ticks s)).
Proof.
  intros Hid Hnz Hst. unfold process_opportunity. rewrite Hid.
  destruct (stage_id =? 0) eqn:E; [lia|]. by rewrite Hst.
Qed.

(** C2.  In a sequence of opportunities whose prefix [pre] is processed
    to the end, an opportunity [bad] with a stage id that the catalog
    does not have ends the loop, and with it the run: the events are
    those of the prefix followed by the one error record, so nothing is
    written for [bad] or for any opportunity after it, and [bad] and
    the opportunities after it are left as they were. *)
Theorem unknown_stage_aborts_run ids stages pre bad post stage_id s pre' s1 :
  Opportunity.STAGE_ID bad = Some stage_id → stage_id ≠ 0 →
  stages !! stage_id = None →
  for_opportunities py srv clock ids stages pre s = (Ok (Next, pre'), s1) →
  for_opportunities py srv clock ids stages (pre ++ bad :: post) s
  = (Ok (Return, pre' ++ bad :: post),
     mk_state (trace s1 ++ [Log ERROR (NoStageFound stage_id)]) (ticks s1)).
Proof.
  intros Hid Hnz Hst. revert s pre'.
  induction pre as [|opp pre IH]; intros s pre'.
  - intros [= <- <-]. simpl. unfold bind.
    by rewrite (process_opportunity_unknown_stage _ _ _ _ _ Hid Hnz Hst).
  - simpl. unfold bind at 1 3.
    destruct (process_opportunity _ _ _ _ _ _ _) as [[[[|] opp']| |] s0];
      try done.
    unfold bind at 1 2.
    destruct (for_opportunities _ _ _ _ _ pre s0) as [[[fl rest]| |] s2] eqn:R;
      try done.
    intros [= -> <- <-].
    by rewrite (IH _ _ R).
Qed.

Lemma check_fields_map_fails a la b lb c lc :
  length la ≠ 1%nat ∨ length lb ≠ 1%nat ∨ length lc ≠ 1%nat →
  ∃ msg, check_fields_map [(a, la); (b, lb); (c, lc)] = Some msg.
Proof.
  intros H. simpl.
  destruct la as [|? [|? ?]], lb as [|? [|? ?]], lc as [|? [|? ?]];
    simpl in *; eauto; lia.
Qed.

(** C1, amended.  When the custom-field definitions arrive and one of
    the three names has no match or more than one, the run makes no
    further request: it logs one error and returns normally, without
    raising, so the process ends with status 0.  No opportunity is
    fetched or written. *)
Theorem field_resolution_failure_ends_run fuel :
  status_code (custom_fields srv) = 200 →
  (length (get_fields_by_name (content (custom_fields srv))
             "last known stage") ≠ 1%nat
   ∨ length (get_fields_by_name (content (custom_fields srv))
               "last time stage changed") ≠ 1%nat
   ∨ length (get_fields_by_name (content (custom_fields srv))
               "days in current stage") ≠ 1%nat) →
  ∃ msg,
    main py srv clock fuel
    = (Ok tt, mk_state [Get "/CustomFields"; Log ERROR msg] 0) ∧
    exit_status (main py srv clock fuel).1 = Some 0.
Proof.
  intros Hok Hbad.
  destruct (check_fields_map_fails "last_known_stage" _
              "last_time_stage_changed" _ "days_in_current_stage" _ Hbad)
    as [msg Hmsg].
  exists msg.
  assert (main py srv clock fuel
          = (Ok tt, mk_state [Get "/CustomFields"; Log ERROR msg] 0)) as ->.
  { unfold main, process_opportunities_stages, insightly_get.
    unfold bind at 1. unfold bind at 1. unfold emit at 1.
    cbn [trace ticks initial app]. rewrite Hok.
    cbn [Z.eqb Pos.eqb negb ret]. rewrite Hmsg. reflexivity. }
  done.
Qed.

(** X22.  The other way a run ends before any opportunity is fetched:
    the request for the definitions is refused, and the run raises. *)
Lemma upstream_failure_raises fuel :
  status_code (custom_fields srv) ≠ 200 →
  ∃ e,
    main py srv clock fuel
    = (Raise e, mk_state [Get "/CustomFields"; Log CRITICAL (ApiError e)] 0) ∧
    exit_status (main py srv clock fuel).1 = Some 1.
Proof.
  intros Hbad.
  exists (HttpError "GET" (status_code (custom_fields srv)) "/CustomFields").
  assert (main py srv clock fuel
          = (Raise (HttpError "GET" (status_code (custom_fields srv))
                      "/CustomFields"),
             mk_state [Get "/CustomFields";
                       Log CRITICAL
                         (ApiError (HttpError "GET"
                                      (status_code (custom_fields srv))
                                      "/CustomFields"))] 0)) as ->.
  { unfold main, process_opportunities_stages, insightly_get.
    unfold bind at 1. unfold bind at 1. unfold emit at 1.
    cbn [trace ticks initial app].
    rewrite (proj2 (Z.eqb_neq _ _) Hbad). reflexivity. }
  done.
Qed.

End Orchestrator.

(** ** Concrete runs *)

Lemma scenario_ids_distinct : distinct_ids TestCase.ids.
Proof. repeat split; discriminate. Qed.

Lemma scenario_clock_valid n : valid (TestCase.clock n).
Proof. vm_compute. intuition discriminate. Qed.

(** C1: no custom-field definitions at all.  The run logs the error and
    returns; nothing is raised and the exit status is 0, not non-zero. *)
Lemma no_fields_run_exits_zero :
  get_fields_by_name (content (custom_fields Scenario.no_fields)) "last known stage" = []
  ∧ main Py2 Scenario.no_fields TestCase.clock 10
    = (Ok tt, mk_state [Get "/CustomFields";
                        Log ERROR (NoFieldFound "last_known_stage")] 0)
  ∧ exit_status (main Py2 Scenario.no_fields TestCase.clock 10).1 = Some 0.
Proof. vm_compute. auto. Qed.

Lemma field_resolution_failure_witness :
  ∃ msg,
    main Py2 Scenario.no_fields TestCase.clock 10
    = (Ok tt, mk_state [Get "/CustomFields"; Log ERROR msg] 0) ∧
    exit_status (main Py2 Scenario.no_fields TestCase.clock 10).1 = Some 0.
Proof.
  apply (field_resolution_failure_ends_run Py2 Scenario.no_fields TestCase.clock 10).
  - reflexivity.
  - left. simpl. lia.
Defined.

Lemma unknown_stage_witness :
  for_opportunities Py2 Scenario.srv TestCase.clock TestCase.ids Scenario.catalog
    ([Opportunity.mk 1 None []] ++ Opportunity.mk 7 (Some 9) []
       :: [Opportunity.mk 8 (Some 1) []]) initial
  = (Ok (Return, [Opportunity.mk 1 None []] ++ Opportunity.mk 7 (Some 9) []
                   :: [Opportunity.mk 8 (Some 1) []]),
     mk_state (trace initial ++ [Log ERROR (NoStageFound 9)]) (ticks initial)).
Proof.
  apply (unknown_stage_aborts_run Py2 Scenario.srv TestCase.clock TestCase.ids
           Scenario.catalog [Opportunity.mk 1 None []]
           (Opportunity.mk 7 (Some 9) []) [Opportunity.mk 8 (Some 1) []] 9
           initial [Opportunity.mk 1 None []] initial).
  - reflexivity.
  - lia.
  - vm_compute. reflexivity.
  - reflexivity.
Defined.

Lemma get_all_never_returns_witness :
  (insightly_get_all Scenario.two_at_a_time 1000 OPEN_URL initial).1 = Timeout.
Proof.
  apply (get_all_never_returns_beyond_two_pages Scenario.two_at_a_time 2
           Scenario.five).
  - reflexivity.
  - lia.
  - simpl. lia.
Defined.

(** C4 at an opportunity without custom fields. *)
Lemma first_observation_witness :
  ∃ r s' opp',
    process_opportunity Py2 Scenario.srv TestCase.clock TestCase.ids
      Scenario.catalog (Opportunity.mk 1 (Some 1) []) initial = (r, s') ∧
    sent initial s' opp' ∧
    (let cfs' := Opportunity.CUSTOMFIELDS opp' in
     read cfs' "last_stage" = Some (VInt (Stage.STAGE_ORDER Scenario.stage1)) ∧
     read cfs' "last_time" = Some (today TestCase.clock initial) ∧
     first_entry cfs' "days_in_cur_stage"
     = Some (match first_entry [] "days_in_cur_stage" with
             | Some f => f
             | None => FieldValue.mk "days_in_cur_stage" (Some (VInt 0))
             end) ∧
     read cfs' "days_in_cur_stage"
     = match first_entry [] "days_in_cur_stage" with
       | Some f => FieldValue.FIELD_VALUE f
       | None => Some (VInt 0)
       end).
Proof.
  apply (first_observation_records_stage_and_day Py2 Scenario.srv TestCase.clock
           TestCase.ids scenario_ids_distinct Scenario.catalog
           (Opportunity.mk 1 (Some 1) []) 1 Scenario.stage1 initial).
  - reflexivity.
  - lia.
  - vm_compute. reflexivity.
  - left. reflexivity.
Defined.

(** C10 at a recorded value 0 and a count of 7 days. *)
Lemma falsy_recorded_value_witness :
  ∃ r s' opp',
    process_opportunity Py2 Scenario.srv TestCase.clock TestCase.ids
      Scenario.catalog
      (Scenario.tracked (VInt 0) "2016-03-24 00:00:00" (VInt 7)) initial = (r, s') ∧
    sent initial s' opp' ∧
    (let cfs' := Opportunity.CUSTOMFIELDS opp' in
     read cfs' "last_stage" = Some (VInt (Stage.STAGE_ORDER Scenario.stage1)) ∧
     read cfs' "last_time" = Some (today TestCase.clock initial) ∧
     first_entry cfs' "days_in_cur_stage"
     = Some (entry_read
               (Opportunity.CUSTOMFIELDS
                  (Scenario.tracked (VInt 0) "2016-03-24 00:00:00" (VInt 7)))
               "days_in_cur_stage" (VInt 0))).
Proof.
  apply (falsy_recorded_value_is_first_time Py2 Scenario.srv TestCase.clock
           TestCase.ids scenario_ids_distinct Scenario.catalog
           (Scenario.tracked (VInt 0) "2016-03-24 00:00:00" (VInt 7))
           1 Scenario.stage1 initial (VInt 0)).
  - reflexivity.
  - lia.
  - vm_compute. reflexivity.
  - reflexivity.
  - reflexivity.
Defined.

(** C5 as stated fails where the recorded value and the stage order are
    both 0: the live order equals the recorded value, yet the opportunity
    goes to the store with [last_time_stage_changed] moved from
    2016-03-24 to today, 2016-03-29, and [days_in_current_stage] 0, not
    the 5 days between the two dates. *)
Lemma same_stage_at_order_zero_resets_date :
  int_eq 0 (VInt 0) = true
  ∧ TestCase.puts
      (TestCase.run_with (Scenario.stage_at_order 0)
         [Scenario.tracked (VInt 0) "2016-03-24 00:00:00" (VInt 0)]).2
    = [Scenario.tracked (VInt 0) "2016-03-29 00:00:00" (VInt 0)]
  ∧ strptime_midnight "2016-03-24 00:00:00" = Some (mk_datetime 2016 3 24 0 0 0 0)
  ∧ toordinal TestCase.now - toordinal (mk_datetime 2016 3 24 0 0 0 0) = 5.
Proof. vm_compute. auto. Qed.

Lemma same_stage_witness :
  ∃ r s' opp',
    process_opportunity Py2 Scenario.srv TestCase.clock TestCase.ids
      Scenario.catalog
      (Scenario.tracked (VInt 1) "2016-03-24 00:00:00" (VInt 0)) initial = (r, s') ∧
    sent initial s' opp' ∧
    (let cfs' := Opportunity.CUSTOMFIELDS opp' in
     read cfs' "days_in_cur_stage"
     = Some (VInt (toordinal (TestCase.clock 1)
                   - toordinal (mk_datetime 2016 3 24 0 0 0 0))) ∧
     first_entry cfs' "last_stage"
     = first_entry (Opportunity.CUSTOMFIELDS
                      (Scenario.tracked (VInt 1) "2016-03-24 00:00:00" (VInt 0)))
         "last_stage" ∧
     first_entry cfs' "last_time"
     = first_entry (Opportunity.CUSTOMFIELDS
                      (Scenario.tracked (VInt 1) "2016-03-24 00:00:00" (VInt 0)))
         "last_time").
Proof.
  apply (same_stage_recounts_days Py2 Scenario.srv TestCase.clock
           TestCase.ids scenario_ids_distinct Scenario.catalog
           (Scenario.tracked (VInt 1) "2016-03-24 00:00:00" (VInt 0))
           1 Scenario.stage1 initial (VInt 1) "2016-03-24 00:00:00"
           (mk_datetime 2016 3 24 0 0 0 0)).
  - reflexivity.
  - lia.
  - vm_compute. reflexivity.
  - apply scenario_clock_valid.
  - reflexivity.
  - reflexivity.
  - reflexivity.
  - reflexivity.
  - reflexivity.
Defined.

(** C6 as stated fails where the recorded value is 0: the stage order 1
    is greater, yet the opportunity goes to the store with its
    [days_in_current_stage] still 7, not 0. *)
Lemma advance_from_zero_keeps_days :
  as_int (VInt 0) = Some 0 ∧ 0 < Stage.STAGE_ORDER Scenario.stage1
  ∧ TestCase.puts
      (TestCase.run [Scenario.tracked (VInt 0) "2016-03-24 00:00:00" (VInt 7)]).2
    = [Scenario.tracked (VInt 1) "2016-03-29 00:00:00" (VInt 7)].
Proof. vm_compute. auto. Qed.

Lemma advance_witness :
  ∃ r s' opp',
    process_opportunity Py2 Scenario.srv TestCase.clock TestCase.ids
      Scenario.catalog
      (Opportunity.mk 1 (Some 2)
         [FieldValue.mk "last_stage" (Some (VInt 1));
          FieldValue.mk "last_time" (Some (VStr "2015-08-30 00:00:00"));
          FieldValue.mk "days_in_cur_stage" (Some (VInt 12))]) initial = (r, s') ∧
    sent initial s' opp' ∧
    (let cfs' := Opportunity.CUSTOMFIELDS opp' in
     read cfs' "days_in_cur_stage" = Some (VInt 0) ∧
     read cfs' "last_time" = Some (today TestCase.clock initial) ∧
     read cfs' "last_stage" = Some (VInt (Stage.STAGE_ORDER Scenario.stage2))).
Proof.
  apply (advance_resets_days Py2 Scenario.srv TestCase.clock
           TestCase.ids scenario_ids_distinct Scenario.catalog
           (Opportunity.mk 1 (Some 2)
              [FieldValue.mk "last_stage" (Some (VInt 1));
               FieldValue.mk "last_time" (Some (VStr "2015-08-30 00:00:00"));
               FieldValue.mk "days_in_cur_stage" (Some (VInt 12))])
           2 Scenario.stage2 initial (VInt 1) 1).
  - reflexivity.
  - lia.
  - vm_compute. reflexivity.
  - reflexivity.
  - reflexivity.
  - reflexivity.
  - simpl. lia.
Defined.

(** C7 as stated fails where the recorded value is 0 and the stage order
    is below it: the opportunity goes to the store with
    [last_known_stage] and [last_time_stage_changed] overwritten. *)
Lemma regression_below_zero_overwrites :
  as_int (VInt 0) = Some 0 ∧ -1 < 0
  ∧ TestCase.puts
      (TestCase.run_with (Scenario.stage_at_order (-1))
         [Scenario.tracked (VInt 0) "2016-03-24 00:00:00" (VInt 3)]).2
    = [Scenario.tracked (VInt (-1)) "2016-03-29 00:00:00" (VInt 3)].
Proof. vm_compute. auto. Qed.

Lemma regression_witness :
  ∃ r s' opp',
    process_opportunity Py2 Scenario.srv TestCase.clock TestCase.ids
      Scenario.catalog
      (Scenario.tracked (VInt 2) "2016-03-24 00:00:00" (VInt 3)) initial = (r, s') ∧
    sent initial s' opp' ∧
    (let cfs := Opportunity.CUSTOMFIELDS
                  (Scenario.tracked (VInt 2) "2016-03-24 00:00:00" (VInt 3)) in
     let cfs' := Opportunity.CUSTOMFIELDS opp' in
     first_entry cfs' "last_stage" = first_entry cfs "last_stage" ∧
     first_entry cfs' "last_time"
     = Some (entry_read cfs "last_time"
               (VStr (strftime_midnight (TestCase.clock (ticks initial))))) ∧
     first_entry cfs' "days_in_cur_stage"
     = Some (entry_read cfs "days_in_cur_stage" (VInt 0)) ∧
     (is_Some (first_entry cfs "last_time") →
      is_Some (first_entry cfs "days_in_cur_stage") →
      opp' = Scenario.tracked (VInt 2) "2016-03-24 00:00:00" (VInt 3))).
Proof.
  apply (regression_writes_nothing Py2 Scenario.srv TestCase.clock
           TestCase.ids scenario_ids_distinct Scenario.catalog
           (Scenario.tracked (VInt 2) "2016-03-24 00:00:00" (VInt 3))
           1 Scenario.stage1 initial (VInt 2) 2).
  - reflexivity.
  - lia.
  - vm_compute. reflexivity.
  - reflexivity.
  - reflexivity.
  - reflexivity.
  - simpl. lia.
Defined.

(** C8 as stated fails on an opportunity never tracked that carries a
    count of 7 days: the first application leaves the 7, the second one,
    on the same day, writes 0. *)
Lemma second_run_rewrites_days :
  track_stage Py2 TestCase.clock TestCase.ids 1
    [FieldValue.mk "days_in_cur_stage" (Some (VInt 7))] initial
  = (Ok (1%nat,
         [FieldValue.mk "days_in_cur_stage" (Some (VInt 7));
          FieldValue.mk "last_stage" (Some (VInt 1));
          FieldValue.mk "last_time" (Some (VStr "2016-03-29 00:00:00"))]),
     mk_state [] 2)
  ∧ track_stage Py2 TestCase.clock TestCase.ids 1
      [FieldValue.mk "days_in_cur_stage" (Some (VInt 7));
       FieldValue.mk "last_stage" (Some (VInt 1));
       FieldValue.mk "last_time" (Some (VStr "2016-03-29 00:00:00"))]
      (mk_state [] 2)
    = (Ok (1%nat,
           [FieldValue.mk "days_in_cur_stage" (Some (VInt 0));
            FieldValue.mk "last_stage" (Some (VInt 1));
            FieldValue.mk "last_time" (Some (VStr "2016-03-29 00:00:00"))]),
       mk_state [] 4).
Proof. vm_compute. auto. Qed.

Lemma tracker_idempotent_witness :
  ∃ s2,
    track_stage Py2 TestCase.clock TestCase.ids 1
      [FieldValue.mk "last_stage" (Some (VInt 1));
       FieldValue.mk "last_time" (Some (VStr "2016-03-29 00:00:00"));
       FieldValue.mk "days_in_cur_stage" (Some (VInt 0))] (mk_state [] 2)
    = (Ok (0%nat,
           [FieldValue.mk "last_stage" (Some (VInt 1));
            FieldValue.mk "last_time" (Some (VStr "2016-03-29 00:00:00"));
            FieldValue.mk "days_in_cur_stage" (Some (VInt 0))]), s2).
Proof.
  apply (tracker_idempotent_within_a_day Py2 TestCase.clock TestCase.ids
           scenario_ids_distinct scenario_clock_valid
           (fun n m => eq_refl) 1 [] initial).
  - intros _ _. left. reflexivity.
  - reflexivity.
Defined.

(** C9 as stated fails on an opportunity that comes with two entries of
    one field: both are still there when it goes to the store. *)
Lemma duplicate_entries_survive :
  TestCase.puts
    (TestCase.run
       [Opportunity.mk 1 (Some 1)
          [FieldValue.mk "last_stage" (Some (VInt 1));
           FieldValue.mk "last_stage" (Some (VInt 1))]]).2
  = [Opportunity.mk 1 (Some 1)
       [FieldValue.mk "last_stage" (Some (VInt 1));
        FieldValue.mk "last_stage" (Some (VInt 1));
        FieldValue.mk "last_time" (Some (VStr "2016-03-29 00:00:00"));
        FieldValue.mk "days_in_cur_stage" (Some (VInt 0))]]
  ∧ entries
      [FieldValue.mk "last_stage" (Some (VInt 1));
       FieldValue.mk "last_stage" (Some (VInt 1));
       FieldValue.mk "last_time" (Some (VStr "2016-03-29 00:00:00"));
       FieldValue.mk "days_in_cur_stage" (Some (VInt 0))] "last_stage" = 2%nat.
Proof. vm_compute. auto. Qed.

Lemma processed_opportunity_witness :
  entries
    (Opportunity.CUSTOMFIELDS
       (Scenario.tracked (VInt 1) "2016-03-29 00:00:00" (VInt 0))) "last_time"
  = Nat.max 1 (entries (Opportunity.CUSTOMFIELDS (Opportunity.mk 1 (Some 1) []))
                 "last_time").
Proof.
  apply (processed_opportunity_keeps_entries Py2 Scenario.srv TestCase.clock
           TestCase.ids Scenario.catalog (Opportunity.mk 1 (Some 1) []) 1
           Scenario.stage1 initial Next
           (Scenario.tracked (VInt 1) "2016-03-29 00:00:00" (VInt 0))
           (mk_state
              [Put 1 (Scenario.tracked (VInt 1) "2016-03-29 00:00:00" (VInt 0));
               Log INFO (StageUpdated 1 (VInt 1))] 2)).
  - reflexivity.
  - lia.
  - vm_compute. reflexivity.
  - vm_compute. reflexivity.
  - right. left. reflexivity.
Defined.

(** * Further properties of the code *)

(** ** Field Resolver: matching by name *)

Section Resolver.

Lemma lower_ascii_idemp c : lower_ascii (lower_ascii c) = lower_ascii c.
Proof. by destruct c as [[] [] [] [] [] [] [] []]. Qed.

Lemma lower_idemp s : lower (lower s) = lower s.
Proof. induction s as [|c s IH]; simpl; [done|]. by rewrite lower_ascii_idemp, IH. Qed.

(** X2.  The match ignores the case of the phrase: the phrase in lower
    case selects the same definitions. *)
Theorem get_fields_by_name_ignores_case fields name :
  get_fields_by_name fields (lower name) = get_fields_by_name fields name.
Proof. unfold get_fields_by_name. by rewrite lower_idemp. Qed.

End Resolver.

(** ** Custom fields: what a read does to the list *)

Section Reads.

Implicit Types (cfs : list FieldValue.t) (v default : value).

(** X3.  Reading a field twice is reading it once: the second read,
    whatever its default, hands back the same reference and leaves the
    list as the first read left it. *)
Theorem get_custom_field_twice cfs field_id default default' :
  get_custom_field (get_custom_field cfs field_id default).2 field_id default'
  = get_custom_field cfs field_id default.
Proof.
  pose proof (get_custom_field_find cfs field_id default) as F.
  rewrite (get_custom_field_found _ _ default' _ _ F).
  by destruct (get_custom_field cfs field_id default).
Qed.

(** X4.  A read never removes, reorders or rewrites an entry: the list
    it leaves starts with the list it found and is at most one entry
    longer. *)
Theorem get_custom_field_extends cfs field_id default :
  cfs `prefix_of` (get_custom_field cfs field_id default).2 ∧
  (length (get_custom_field cfs field_id default).2 ≤ S (length cfs))%nat.
Proof.
  unfold get_custom_field.
  destruct (list_find (has_id field_id) cfs) as [[i f]|]; simpl.
  - split; [done | lia].
  - split; [by apply prefix_app_r | rewrite length_app; simpl; lia].
Qed.

(** X5.  The value a read leaves behind for its id: the value of the
    first entry the opportunity had for it, and otherwise the default;
    with the default [None] the new entry has no value at all. *)
Theorem get_custom_field_value cfs field_id default :
  read (get_custom_field cfs field_id default).2 field_id
  = match first_entry cfs field_id with
    | Some f => FieldValue.FIELD_VALUE f
    | None => match default with VNone => None | v => Some v end
    end.
Proof.
  unfold read at 1, first_entry at 1.
  rewrite get_custom_field_find. simpl.
  unfold entry_read. by destruct (first_entry cfs field_id).
Qed.

End Reads.

(** ** Stage Catalog *)

(** X6.  The catalog maps a stage id to the last stage of the list with
    that id; an id that no stage has is not in it. *)
Theorem stages_by_id_lookup (l : list Stage.t) (k : Z) :
  stages_by_id l !! k = last (filter (λ x, Stage.STAGE_ID x = k) l).
Proof.
  unfold stages_by_id.
  induction l as [|x l IH] using rev_ind; [done|].
  rewrite foldl_snoc, filter_app, lookup_insert.
  rewrite filter_cons, filter_nil.
  destruct (decide (Stage.STAGE_ID x = k)) as [Hk|Hk].
  - by rewrite last_snoc.
  - by rewrite app_nil_r.
Qed.

(** ** The loop over the opportunities *)

Section Loop.

Variable py : version.
Variable srv : server.
Variable clock : nat -> datetime.
Variable ids : field_ids.
Variable stages : gmap Z Stage.t.

Implicit Types (cfs : list FieldValue.t) (s : state) (v : value)
  (opp : Opportunity.t) (opps pre post : list Opportunity.t).

(** The tracker makes no request and logs nothing, whatever the ids. *)
Lemma track_stage_silent stage_order cfs s r s' :
  track_stage py clock ids stage_order cfs s = (r, s') → trace s' = trace s.
Proof.
  unfold track_stage, bind, datetime_now. simpl.
  destruct (get_custom_field cfs _ VNone) as [i1 c1].
  destruct (get_custom_field c1 _ _) as [i2 c2].
  destruct (get_custom_field c2 _ (VInt 0)) as [i3 c3].
  destruct (stage_decision _ _ _ _ _ _ _ _) as [r0 s0] eqn:D.
  apply stage_decision_trace in D.
  destruct r0; intros [= <- <-]; done.
Qed.

Lemma value_at_set_value cfs i j v :
  is_Some (value_at cfs j) → is_Some (value_at (set_value cfs i v) j).
Proof.
  unfold value_at, set_value. rewrite list_lookup_alter.
  destruct (decide (i = j)) as [->|]; [|done].
  destruct (cfs !! j); simpl; [eauto | by intros [? ?]].
Qed.

Lemma value_at_set_value_eq cfs i v :
  is_Some (cfs !! i) → is_Some (value_at (set_value cfs i v) i).
Proof.
  unfold value_at, set_value. rewrite list_lookup_alter_eq.
  intros [f ->]. simpl. eauto.
Qed.

Lemma get_custom_field_keeps_lookup cfs field_id default j :
  is_Some (cfs !! j) →
  is_Some ((get_custom_field cfs field_id default).2 !! j).
Proof.
  intros H. destruct (get_custom_field_extends cfs field_id default)
    as ([k ->] & _). rewrite lookup_app_l; [done|].
  by apply lookup_lt_is_Some.
Qed.

(** When the tracker returns, the [last_known_stage] it hands back has a
    value: the log line after the write cannot fail. *)
Lemma track_stage_value stage_order cfs s i cfs' s' :
  track_stage py clock ids stage_order cfs s = (Ok (i, cfs'), s') →
  is_Some (value_at cfs' i).
Proof.
  unfold track_stage, bind, datetime_now. simpl.
  pose proof (get_custom_field_find cfs (last_known_stage_id ids) VNone) as F.
  destruct (get_custom_field cfs _ VNone) as [i1 c1]. simpl in F.
  assert (is_Some (c1 !! i1)) as H1.
  { apply list_find_Some in F as (-> & _). eauto. }
  pose proof (get_custom_field_keeps_lookup c1 (last_time_stage_changed_id ids)
                (VStr (strftime_midnight (clock (ticks s)))) i1 H1) as H2.
  destruct (get_custom_field c1 _ _) as [i2 c2]. simpl in H2.
  pose proof (get_custom_field_keeps_lookup c2 (days_in_current_stage_id ids)
                (VInt 0) i1 H2) as H3.
  destruct (get_custom_field c2 _ (VInt 0)) as [i3 c3]. simpl in H3.
  destruct (stage_decision _ _ _ _ _ _ _ _) as [[c| |] s0] eqn:D;
    intros [= <- <- <-].
  revert D. unfold stage_decision.
  destruct (truthy (default VNone (value_at c3 i1))) eqn:T.
  - assert (is_Some (value_at c3 i1)) as Hv.
    { destruct (value_at c3 i1); [eauto | done]. }
    unfold getitem_FIELD_VALUE, strptime, bind, ret, raise, datetime_now.
    intros D. repeat case_match; simplify_eq;
      repeat apply value_at_set_value; done.
  - unfold bind, ret, datetime_now. intros [= <- <-].
    apply value_at_set_value. by apply value_at_set_value_eq.
Qed.

(** X8.  An opportunity without a stage is passed over: a list of such
    opportunities leaves no event, takes no clock reading and is handed
    back as it was. *)
Theorem opportunities_without_stage_are_skipped opps s :
  Forall (λ opp, has_stage opp = false) opps →
  for_opportunities py srv clock ids stages opps s = (Ok (Next, opps), s).
Proof.
  induction 1 as [|opp opps Hopp _ IH]; [done|].
  simpl. unfold bind at 1.
  assert (process_opportunity py srv clock ids stages opp s = (Ok (Next, opp), s))
    as ->.
  { unfold process_opportunity, has_stage in *.
    destruct (Opportunity.STAGE_ID opp) as [z|]; [|done].
    destruct (z =? 0); [done | discriminate]. }
  unfold bind. by rewrite IH.
Qed.

(** X9.  The loop over a concatenation is the loop over the first list
    followed, when that one ran to its end, by the loop over the second
    from the state the first left; after a [return] in the first list
    the second is left untouched. *)
Theorem loop_over_concatenation pre post s fl pre' s1 :
  for_opportunities py srv clock ids stages pre s = (Ok (fl, pre'), s1) →
  for_opportunities py srv clock ids stages (pre ++ post) s
  = match fl with
    | Return => (Ok (Return, pre' ++ post), s1)
    | Next =>
        match for_opportunities py srv clock ids stages post s1 with
        | (Ok (fl', post'), s2) => (Ok (fl', pre' ++ post'), s2)
        | (Raise e, s2) => (Raise e, s2)
        | (Timeout, s2) => (Timeout, s2)
        end
    end.
Proof.
  revert s fl pre'. induction pre as [|opp pre IH]; intros s fl pre'.
  - intros [= <- <- <-]. simpl.
    by destruct (for_opportunities _ _ _ _ _ post s) as [[[fl' post']| |] s2].
  - simpl. unfold bind at 1 3.
    destruct (process_opportunity _ _ _ _ _ _ _) as [[[[|] opp']| |] s0];
      try done.
    + unfold bind at 1 2.
      destruct (for_opportunities _ _ _ _ _ pre s0) as [[[fl2 rest]| |] s2] eqn:R;
        try done.
      intros [= <- <- <-]. rewrite (IH _ _ _ R).
      destruct fl2; [|done].
      by destruct (for_opportunities _ _ _ _ _ post s2) as [[[fl' post']| |] s3].
    + by intros [= <- <- <-].
Qed.

(** X10.  An exception in the processing of one opportunity ends the
    loop there: the loop raises it, in the state that opportunity left,
    and no opportunity after it is looked at. *)
Theorem exception_ends_the_loop pre opp post s pre' s1 e s2 :
  for_opportunities py srv clock ids stages pre s = (Ok (Next, pre'), s1) →
  process_opportunity py srv clock ids stages opp s1 = (Raise e, s2) →
  for_opportunities py srv clock ids stages (pre ++ opp :: post) s
  = (Raise e, s2).
Proof.
  intros Hpre Hopp. revert s pre' Hpre.
  induction pre as [|o pre IH]; intros s pre'.
  - intros [= <- <-]. simpl. unfold bind. by rewrite Hopp.
  - simpl. unfold bind at 1 3.
    destruct (process_opportunity _ _ _ _ _ o s) as [[[[|] o']| |] s0];
      try done.
    unfold bind at 1 2.
    destruct (for_opportunities _ _ _ _ _ pre s0) as [[[fl2 rest]| |] s3] eqn:R;
      try done.
    intros [= -> <- <-]. by rewrite (IH _ _ R).
Qed.

(** X11.  A refused write raises: when the tracker has returned and the
    store answers the PUT with a status other than 200, the processing
    of the opportunity ends with the HTTP error, after the request and a
    critical log record; the info record of a successful write is not
    logged. *)
Theorem refused_write_raises opp stage_id stage s i cfs' s1 :
  Opportunity.STAGE_ID opp = Some stage_id → stage_id ≠ 0 →
  stages !! stage_id = Some stage →
  track_stage py clock ids (Stage.STAGE_ORDER stage)
    (Opportunity.CUSTOMFIELDS opp) s = (Ok (i, cfs'), s1) →
  put_opportunity srv (Opportunity.OPPORTUNITY_ID opp)
    (Opportunity.with_CUSTOMFIELDS opp cfs') ≠ 200 →
  let opp' := Opportunity.with_CUSTOMFIELDS opp cfs' in
  let id := Opportunity.OPPORTUNITY_ID opp in
  let err := HttpError "PUT" (put_opportunity srv id opp')
               ("/opportunities/" +:+ pretty id) in
  process_opportunity py srv clock ids stages opp s
  = (Raise err,
     mk_state (trace s ++ [Put id opp'; Log CRITICAL (ApiError err)]) (ticks s1)).
Proof.
  intros Hid Hnz Hst Htr Hput. cbv zeta.
  pose proof (track_stage_silent _ _ _ _ _ Htr) as Htrace.
  unfold process_opportunity. rewrite Hid.
  destruct (stage_id =? 0) eqn:E; [lia|]. rewrite Hst.
  unfold bind at 1. rewrite Htr.
  cbv [bind insightly_put api_error emit ret raise]. simpl.
  rewrite (proj2 (Z.eqb_neq _ _) Hput). simpl.
  by rewrite Htrace, <- app_assoc.
Qed.

(** X12.  An accepted write ends the processing of the opportunity
    normally: after the request, one info record names the opportunity
    and the value its [last_known_stage] field now holds, which is
    always there to be logged. *)
Theorem accepted_write_is_logged opp stage_id stage s i cfs' s1 :
  Opportunity.STAGE_ID opp = Some stage_id → stage_id ≠ 0 →
  stages !! stage_id = Some stage →
  track_stage py clock ids (Stage.STAGE_ORDER stage)
    (Opportunity.CUSTOMFIELDS opp) s = (Ok (i, cfs'), s1) →
  put_opportunity srv (Opportunity.OPPORTUNITY_ID opp)
    (Opportunity.with_CUSTOMFIELDS opp cfs') = 200 →
  ∃ v, value_at cfs' i = Some v ∧
    let opp' := Opportunity.with_CUSTOMFIELDS opp cfs' in
    let id := Opportunity.OPPORTUNITY_ID opp in
    process_opportunity py srv clock ids stages opp s
    = (Ok (Next, opp'),
       mk_state (trace s ++ [Put id opp'; Log INFO (StageUpdated id v)])
         (ticks s1)).
Proof.
  intros Hid Hnz Hst Htr Hput.
  pose proof (track_stage_silent _ _ _ _ _ Htr) as Htrace.
  destruct (track_stage_value _ _ _ _ _ _ Htr) as [v Hv].
  exists v. split; [done|]. cbv zeta.
  unfold process_opportunity. rewrite Hid.
  destruct (stage_id =? 0) eqn:E; [lia|]. rewrite Hst.
  unfold bind at 1. rewrite Htr.
  cbv [bind insightly_put api_error emit ret raise getitem_FIELD_VALUE]. simpl.
  rewrite Hput, Hv. simpl.
  by rewrite Htrace, <- app_assoc.
Qed.

(** What one opportunity adds to the trace. *)
Lemma process_opportunity_events opp s r s' :
  process_opportunity py srv clock ids stages opp s = (r, s') →
  ∃ evs, trace s' = trace s ++ evs ∧
    if has_stage opp
    then put_ids evs = [Opportunity.OPPORTUNITY_ID opp]
         ∨ (put_ids evs = [] ∧ ∀ o, r ≠ Ok (Next, o))
    else put_ids evs = [] ∧ r = Ok (Next, opp).
Proof.
  unfold process_opportunity, has_stage.
  destruct (Opportunity.STAGE_ID opp) as [z|].
  2:{ intros [= <- <-]. exists []. by rewrite app_nil_r. }
  destruct (z =? 0); simpl.
  { intros [= <- <-]. exists []. by rewrite app_nil_r. }
  destruct (stages !! z) as [stage|].
  2:{ intros [= <- <-]. eexists. split; [reflexivity|]. right. done. }
  unfold bind at 1.
  destruct (track_stage _ _ _ _ _ _) as [[[i cfs']| |] s1] eqn:T;
    pose proof (track_stage_silent _ _ _ _ _ T) as Htrace.
  - cbv [bind insightly_put api_error emit ret raise getitem_FIELD_VALUE].
    simpl. rewrite Htrace.
    destruct (negb _).
    + intros [= <- <-]. simpl. rewrite <- app_assoc. eexists. split; [done|].
      by left.
    + destruct (value_at cfs' i); intros [= <- <-]; simpl;
        rewrite <- ?app_assoc; eexists; (split; [done|]); by left.
  - intros [= <- <-]. exists []. rewrite app_nil_r. split; [done|]. by right.
  - intros [= <- <-]. exists []. rewrite app_nil_r. split; [done|]. by right.
Qed.

(** X13.  Whatever happens in a run of the loop, the writes it makes are
    for opportunities of the list that have a stage, in the order of the
    list, each at most once, with no gap: they are for an initial
    segment of those opportunities. *)
Theorem writes_follow_the_list opps s r s' :
  for_opportunities py srv clock ids stages opps s = (r, s') →
  ∃ evs, trace s' = trace s ++ evs ∧
    put_ids evs `prefix_of`
      (Opportunity.OPPORTUNITY_ID <$> filter (λ opp, has_stage opp = true) opps).
Proof.
  revert s r s'. induction opps as [|opp opps IH]; intros s r s'.
  - intros [= <- <-]. exists []. by rewrite app_nil_r.
  - simpl. unfold bind at 1.
    destruct (process_opportunity _ _ _ _ _ _ _) as [r0 s0] eqn:P.
    destruct (process_opportunity_events _ _ _ _ P) as (evs0 & Ht0 & Hp0).
    rewrite filter_cons.
    assert (∀ l, put_ids evs0 = [Opportunity.OPPORTUNITY_ID opp] ∨ put_ids evs0 = [] →
                 put_ids evs0 `prefix_of` Opportunity.OPPORTUNITY_ID opp :: l)
      as Hstop.
    { intros l [-> | ->]; [apply prefix_cons, prefix_nil | apply prefix_nil]. }
    destruct r0 as [[[|] opp']| |].
    + unfold bind.
      destruct (for_opportunities _ _ _ _ _ opps s0) as [r1 s2] eqn:R.
      destruct (IH _ _ _ R) as (evs1 & Ht1 & Hp1).
      intros Heq. exists (evs0 ++ evs1).
      assert (s' = s2) as ->
        by (destruct r1 as [[? ?]| |]; unfold ret in Heq; by simplify_eq).
      split; [by rewrite Ht1, Ht0, app_assoc|].
      unfold put_ids in *. rewrite omap_app.
      destruct (has_stage opp).
      * rewrite decide_True by done. simpl.
        destruct Hp0 as [-> | [_ Hn]]; [|by destruct (Hn opp')].
        by apply prefix_cons.
      * destruct Hp0 as [-> _]. by rewrite decide_False by done.
    + intros [= <- <-]. exists evs0. split; [done|].
      destruct (has_stage opp).
      * rewrite decide_True by done. simpl. apply Hstop.
        destruct Hp0 as [H | [H _]]; auto.
      * by destruct Hp0 as [_ ?].
    + intros [= <- <-]. exists evs0. split; [done|].
      destruct (has_stage opp).
      * rewrite decide_True by done. simpl. apply Hstop.
        destruct Hp0 as [H | [H _]]; auto.
      * by destruct Hp0 as [_ ?].
    + intros [= <- <-]. exists evs0. split; [done|].
      destruct (has_stage opp).
      * rewrite decide_True by done. simpl. apply Hstop.
        destruct Hp0 as [H | [H _]]; auto.
      * by destruct Hp0 as [_ ?].
Qed.

End Loop.

(** ** Values the tracker cannot handle *)

Section BadValues.

Variable srv : server.
Variable clock : nat -> datetime.
Variable ids : field_ids.
Hypothesis ids_distinct : distinct_ids ids.

Implicit Types (cfs : list FieldValue.t) (s : state) (v : value)
  (opp : Opportunity.t) (stages : gmap Z Stage.t).

Local Abbreviation lks := (last_known_stage_id ids).
Local Abbreviation lts := (last_time_stage_changed_id ids).
Local Abbreviation days := (days_in_current_stage_id ids).

(** When the tracker raises, so does the processing of the opportunity,
    before any request. *)
Lemma tracker_raise_is_raised py stages opp stage_id stage s e s1 :
  Opportunity.STAGE_ID opp = Some stage_id → stage_id ≠ 0 →
  stages !! stage_id = Some stage →
  track_stage py clock ids (Stage.STAGE_ORDER stage)
    (Opportunity.CUSTOMFIELDS opp) s = (Raise e, s1) →
  process_opportunity py srv clock ids stages opp s = (Raise e, s1).
Proof.
  intros Hid Hnz Hst Htr. unfold process_opportunity. rewrite Hid.
  destruct (stage_id =? 0) eqn:E; [lia|]. rewrite Hst.
  unfold bind at 1. by rewrite Htr.
Qed.

(** X14.  An opportunity still in its recorded stage whose stored
    [last_time_stage_changed] is a text of printable ASCII characters
    that is not a date at midnight in the program's format makes the
    run raise [ValueError]: nothing is written and nothing is logged for
    it. *)
Theorem unreadable_date_raises py stages opp stage_id stage s v stored :
  Opportunity.STAGE_ID opp = Some stage_id → stage_id ≠ 0 →
  stages !! stage_id = Some stage →
  read (Opportunity.CUSTOMFIELDS opp) lks = Some v → truthy v = true →
  int_eq (Stage.STAGE_ORDER stage) v = true →
  read (Opportunity.CUSTOMFIELDS opp) lts = Some (VStr stored) →
  printable stored = true →
  strptime_midnight stored = None →
  process_opportunity py srv clock ids stages opp s = (Raise ValueError, tick s).
Proof.
  intros Hid Hnz Hst Hv Ht He Hs _ Hd.
  apply (tracker_raise_is_raised _ _ _ _ _ _ _ _ Hid Hnz Hst).
  destruct (track_stage_reads py clock ids ids_distinct (Stage.STAGE_ORDER stage)
              (Opportunity.CUSTOMFIELDS opp) s)
    as (i1 & i2 & i3 & c3 & F1 & F2 & F3 & _ & _ & ->).
  pose proof (find_value_at _ _ _ _ F1) as V1.
  pose proof (find_value_at _ _ _ _ F2) as V2.
  rewrite entry_read_value_None, Hv in V1.
  rewrite entry_read_value in V2. unfold read in Hs.
  destruct (first_entry (Opportunity.CUSTOMFIELDS opp) lts) as [f|]; [|done].
  simpl in Hs. rewrite Hs in V2.
  unfold stage_decision, getitem_FIELD_VALUE, strptime, bind.
  rewrite V1. simpl. rewrite Ht. simpl. rewrite He, V2. simpl.
  by rewrite Hd.
Qed.

(** X15.  A recorded [last_known_stage] that is a non-empty text is
    compared with the stage order as the interpreter does it.  Under
    Python 3 the ordering of a number against a text raises [TypeError]
    and nothing is written; under Python 2 the number is the smaller
    one, so the opportunity goes to the store with its
    [last_known_stage] entry as it was, and unchanged altogether when it
    had all three fields. *)
Theorem text_in_last_known_stage stages opp stage_id stage s text :
  Opportunity.STAGE_ID opp = Some stage_id → stage_id ≠ 0 →
  stages !! stage_id = Some stage →
  read (Opportunity.CUSTOMFIELDS opp) lks = Some (VStr text) → text ≠ "" →
  process_opportunity Py3 srv clock ids stages opp s = (Raise TypeError, tick s)
  ∧ ∃ r s' opp',
      process_opportunity Py2 srv clock ids stages opp s = (r, s') ∧
      sent s s' opp' ∧
      first_entry (Opportunity.CUSTOMFIELDS opp') lks
      = first_entry (Opportunity.CUSTOMFIELDS opp) lks ∧
      (is_Some (first_entry (Opportunity.CUSTOMFIELDS opp) lts) →
       is_Some (first_entry (Opportunity.CUSTOMFIELDS opp) days) →
       opp' = opp).
Proof.
  intros Hid Hnz Hst Hv Hne.
  assert (truthy (VStr text) = true) as Ht.
  { simpl. apply negb_true_iff. by apply String.eqb_neq. }
  split.
  - apply (tracker_raise_is_raised _ _ _ _ _ _ _ _ Hid Hnz Hst).
    destruct (track_stage_reads Py3 clock ids ids_distinct
                (Stage.STAGE_ORDER stage) (Opportunity.CUSTOMFIELDS opp) s)
      as (i1 & i2 & i3 & c3 & F1 & _ & _ & _ & _ & ->).
    pose proof (find_value_at _ _ _ _ F1) as V1.
    rewrite entry_read_value_None, Hv in V1.
    unfold stage_decision, getitem_FIELD_VALUE, bind.
    rewrite V1. change (default VNone (Some (VStr text))) with (VStr text).
    rewrite Ht. reflexivity.
  - apply (tracked_then_sent Py2 srv clock ids ids_distinct _ stages opp stage_id
             stage s Hid Hnz Hst).
    destruct (track_regressed Py2 clock ids ids_distinct (Stage.STAGE_ORDER stage)
                (Opportunity.CUSTOMFIELDS opp) s (VStr text))
      as (i & cfs' & Htr & H1 & _ & _ & H4); [done..|].
    exists i, cfs', (tick s). split_and!; try done.
    intros Hl Hd. simpl. rewrite (H4 Hl Hd). by destruct opp.
Qed.

End BadValues.

(** ** What a run leaves alone *)

Section Frame.

Variable py : version.
Variable srv : server.
Variable clock : nat -> datetime.
Variable ids : field_ids.
Variable stages : gmap Z Stage.t.

Implicit Types (cfs : list FieldValue.t) (s : state) (x : FieldValue.t)
  (opp : Opportunity.t) (opps : list Opportunity.t).

(** A read keeps every entry where it is. *)
Lemma get_custom_field_keeps cfs field_id default j x :
  cfs !! j = Some x →
  (get_custom_field cfs field_id default).2 !! j = Some x.
Proof.
  intros Hj.
  destruct (get_custom_field_extends cfs field_id default) as ([k ->] & _).
  by apply lookup_app_l_Some.
Qed.

(** The reference of a read points to an entry with the id read. *)
Lemma get_custom_field_points cfs field_id default :
  ∃ e, (get_custom_field cfs field_id default).2
         !! (get_custom_field cfs field_id default).1 = Some e ∧
       FieldValue.CUSTOM_FIELD_ID e = field_id.
Proof.
  pose proof (get_custom_field_find cfs field_id default) as F.
  apply list_find_Some in F as (H & Hid & _). eauto.
Qed.

(** X18.  The tracker touches only the three tracked fields: an entry
    of the opportunity with any other id is, when the tracker returns,
    at the same place with the same value. *)
Theorem tracker_leaves_other_fields stage_order cfs s i cfs' s' j x :
  track_stage py clock ids stage_order cfs s = (Ok (i, cfs'), s') →
  cfs !! j = Some x →
  ¬ resolved ids (FieldValue.CUSTOM_FIELD_ID x) →
  cfs' !! j = Some x.
Proof.
  intros Htr Hj Hx. revert Htr.
  unfold track_stage, bind, datetime_now. simpl.
  pose proof (get_custom_field_keeps cfs (last_known_stage_id ids) VNone j x Hj)
    as J1.
  destruct (get_custom_field_points cfs (last_known_stage_id ids) VNone)
    as (e1 & E1 & I1).
  destruct (get_custom_field cfs _ VNone) as [i1 c1]. simpl in *.
  set (now := VStr (strftime_midnight (clock (ticks s)))).
  pose proof (get_custom_field_keeps c1 (last_time_stage_changed_id ids) now j x J1)
    as J2.
  pose proof (get_custom_field_keeps c1 (last_time_stage_changed_id ids) now
                i1 e1 E1) as E1'.
  destruct (get_custom_field_points c1 (last_time_stage_changed_id ids) now)
    as (e2 & E2 & I2).
  destruct (get_custom_field c1 _ now) as [i2 c2]. simpl in *.
  pose proof (get_custom_field_keeps c2 (days_in_current_stage_id ids) (VInt 0)
                j x J2) as J3.
  pose proof (get_custom_field_keeps c2 (days_in_current_stage_id ids) (VInt 0)
                i1 e1 E1') as E1''.
  pose proof (get_custom_field_keeps c2 (days_in_current_stage_id ids) (VInt 0)
                i2 e2 E2) as E2'.
  destruct (get_custom_field_points c2 (days_in_current_stage_id ids) (VInt 0))
    as (e3 & E3 & I3).
  destruct (get_custom_field c2 _ (VInt 0)) as [i3 c3]. simpl in *.
  assert (i1 ≠ j ∧ i2 ≠ j ∧ i3 ≠ j) as (N1 & N2 & N3).
  { unfold resolved in Hx. split_and!; intros ->; simplify_eq; tauto. }
  destruct (stage_decision _ _ _ _ _ _ _ _) as [[c| |] s0] eqn:D;
    intros [= <- <- <-].
  revert D.
  unfold stage_decision, getitem_FIELD_VALUE, strptime, bind, ret, raise,
    datetime_now.
  intros D. repeat case_match; simplify_eq; unfold set_value;
    rewrite ?list_lookup_alter_ne by done; done.
Qed.

(** X19.  The loop changes nothing of an opportunity but its custom
    fields, and drops or adds no opportunity: the list it hands back has
    the same ids and the same stage ids, in the same order. *)
Theorem loop_keeps_ids_and_stages opps s fl opps' s' :
  for_opportunities py srv clock ids stages opps s = (Ok (fl, opps'), s') →
  Opportunity.OPPORTUNITY_ID <$> opps' = Opportunity.OPPORTUNITY_ID <$> opps ∧
  Opportunity.STAGE_ID <$> opps' = Opportunity.STAGE_ID <$> opps.
Proof.
  assert (∀ opp s r o s1,
            process_opportunity py srv clock ids stages opp s = (Ok (r, o), s1) →
            Opportunity.OPPORTUNITY_ID o = Opportunity.OPPORTUNITY_ID opp ∧
            Opportunity.STAGE_ID o = Opportunity.STAGE_ID opp) as Hone.
  { intros opp s0 r o s1. unfold process_opportunity.
    destruct (Opportunity.STAGE_ID opp) as [z|] eqn:Hz; [|by intros [= <- <- <-]].
    destruct (z =? 0); [by intros [= <- <- <-]|].
    destruct (stages !! z); [|by intros [= <- <- <-]].
    unfold bind at 1.
    destruct (track_stage _ _ _ _ _ _) as [[[i cfs']| |] s2]; try done.
    cbv [bind insightly_put api_error emit ret raise getitem_FIELD_VALUE].
    simpl. destruct (negb _); [done|].
    destruct (value_at cfs' i); intros [= <- <- <-]; done. }
  revert s fl opps' s'. induction opps as [|opp opps IH]; intros s fl opps' s'.
  - by intros [= <- <- <-].
  - simpl. unfold bind at 1.
    destruct (process_opportunity _ _ _ _ _ _ _) as [[[[|] o]| |] s0] eqn:P;
      try done.
    + destruct (Hone _ _ _ _ _ P) as [H1 H2]. unfold bind.
      destruct (for_opportunities _ _ _ _ _ opps s0) as [[[fl2 rest]| |] s2] eqn:R;
        try done.
      intros [= <- <- <-]. destruct (IH _ _ _ _ R) as [G1 G2].
      rewrite !fmap_cons. by rewrite H1, H2, G1, G2.
    + destruct (Hone _ _ _ _ _ P) as [H1 H2].
      intros [= <- <- <-]. rewrite !fmap_cons. by rewrite H1, H2.
Qed.

End Frame.

(** ** Requests that are refused, and a fetch that is complete *)

Section Requests.

Variable py : version.
Variable srv : server.
Variable clock : nat -> datetime.

(** X20.  Against a paginated server whose result set fits in two
    pages, the fetch returns the result set as it is, after one request
    at offset 0 and, when one page is not enough, one more at the offset
    of the page size. *)
Theorem fetch_within_two_pages_is_complete page_size items fuel url s :
  opportunities srv = paged page_size items → (0 < page_size)%nat →
  (length items ≤ 2 * page_size)%nat →
  insightly_get_all srv (S (S fuel)) url s
  = (Ok items,
     mk_state
       (trace s ++ GetPage url 0
          :: if decide (length items ≤ page_size)%nat then []
             else [GetPage url page_size])
       (ticks s)).
Proof.
  intros Hsrv Hpos Hshort. unfold insightly_get_all.
  rewrite (get_all_loop_step srv page_size items Hsrv). cbv zeta.
  rewrite drop_0. simpl app.
  destruct (decide (length items ≤ page_size)%nat) as [Hle|Hgt].
  - rewrite (proj2 (Z.leb_le _ _)) by (rewrite length_take; lia).
    by rewrite take_ge by lia.
  - rewrite (proj2 (Z.leb_gt _ _)) by (rewrite length_take; lia).
    rewrite (get_all_loop_step srv page_size items Hsrv). cbv zeta.
    assert (length (take page_size items) = page_size) as -> .
    { rewrite length_take. lia. }
    simpl Nat.add.
    rewrite (take_ge (drop page_size items)) by (rewrite length_drop; lia).
    rewrite take_drop.
    rewrite (proj2 (Z.leb_le _ _)) by lia. simpl.
    by rewrite <- app_assoc.
Qed.

(** X21.  When the fields resolve and the opportunities are fetched but
    the request for the stages is refused, the run raises the HTTP error
    after a critical log record; no opportunity is processed or
    written. *)
Theorem refused_stage_catalog_raises fuel f1 f2 f3 opps s1 :
  status_code (custom_fields srv) = 200 →
  get_fields_by_name (content (custom_fields srv)) "last known stage" = [f1] →
  get_fields_by_name (content (custom_fields srv)) "last time stage changed" = [f2] →
  get_fields_by_name (content (custom_fields srv)) "days in current stage" = [f3] →
  insightly_get_all srv fuel OPEN_URL (mk_state [Get "/CustomFields"] 0)
    = (Ok opps, s1) →
  status_code (pipeline_stages srv) ≠ 200 →
  let err := HttpError "GET" (status_code (pipeline_stages srv)) "/PipelineStages" in
  main py srv clock fuel
  = (Raise err,
     mk_state (trace s1 ++ [Get "/PipelineStages"; Log CRITICAL (ApiError err)])
       (ticks s1)).
Proof.
  intros Hok H1 H2 H3 Hall Hst. cbv zeta.
  unfold main, process_opportunities_stages, insightly_get.
  unfold bind at 1. unfold bind at 1. unfold emit at 1.
  cbn [trace ticks initial app]. rewrite Hok.
  cbn [Z.eqb Pos.eqb negb ret]. rewrite H1, H2, H3.
  cbn [check_fields_map length Nat.ltb Nat.leb Nat.eqb].
  unfold bind at 1. rewrite Hall.
  unfold bind at 1. unfold bind at 1. unfold emit at 1.
  rewrite (proj2 (Z.eqb_neq _ _) Hst).
  cbn [negb]. unfold api_error, bind, emit, raise. cbn [trace ticks].
  by rewrite <- app_assoc.
Qed.

End Requests.

(** ** Concrete runs of the further properties *)

Lemma opportunities_without_stage_witness :
  for_opportunities Py2 Scenario.srv TestCase.clock TestCase.ids Scenario.catalog
    [Opportunity.mk 2 None []; Opportunity.mk 5 (Some 0) []] initial
  = (Ok (Next, [Opportunity.mk 2 None []; Opportunity.mk 5 (Some 0) []]), initial).
Proof.
  apply (opportunities_without_stage_are_skipped Py2 Scenario.srv TestCase.clock
           TestCase.ids Scenario.catalog).
  repeat constructor.
Defined.

Lemma loop_over_concatenation_witness :
  for_opportunities Py2 Scenario.srv TestCase.clock TestCase.ids Scenario.catalog
    ([Sample.new_opportunity] ++ [Opportunity.mk 7 (Some 9) []]) initial
  = match Next with
    | Return =>
        (Ok (Return, [Sample.seen] ++ [Opportunity.mk 7 (Some 9) []]),
         mk_state [Put 1 Sample.seen; Log INFO (StageUpdated 1 (VInt 1))] 2)
    | Next =>
        match
          for_opportunities Py2 Scenario.srv TestCase.clock TestCase.ids
            Scenario.catalog [Opportunity.mk 7 (Some 9) []]
            (mk_state [Put 1 Sample.seen; Log INFO (StageUpdated 1 (VInt 1))] 2)
        with
        | (Ok (fl', post'), s2) => (Ok (fl', [Sample.seen] ++ post'), s2)
        | (Raise e, s2) => (Raise e, s2)
        | (Timeout, s2) => (Timeout, s2)
        end
    end.
Proof.
  apply (loop_over_concatenation Py2 Scenario.srv TestCase.clock TestCase.ids
           Scenario.catalog [Sample.new_opportunity]
           [Opportunity.mk 7 (Some 9) []] initial Next [Sample.seen]
           (mk_state [Put 1 Sample.seen; Log INFO (StageUpdated 1 (VInt 1))] 2)).
  vm_compute. reflexivity.
Defined.

Lemma exception_ends_the_loop_witness :
  for_opportunities Py2 Scenario.srv TestCase.clock TestCase.ids Scenario.catalog
    ([Opportunity.mk 2 None []]
       ++ Scenario.tracked (VInt 1) "yesterday" (VInt 0)
       :: [Sample.new_opportunity]) initial
  = (Raise ValueError, mk_state [] 1).
Proof.
  apply (exception_ends_the_loop Py2 Scenario.srv TestCase.clock TestCase.ids
           Scenario.catalog [Opportunity.mk 2 None []]
           (Scenario.tracked (VInt 1) "yesterday" (VInt 0))
           [Sample.new_opportunity] initial [Opportunity.mk 2 None []] initial).
  - reflexivity.
  - vm_compute. reflexivity.
Defined.

Lemma refused_write_witness :
  let opp' := Opportunity.with_CUSTOMFIELDS Sample.new_opportunity
                (Opportunity.CUSTOMFIELDS Sample.seen) in
  let id := Opportunity.OPPORTUNITY_ID Sample.new_opportunity in
  let err := HttpError "PUT" (put_opportunity Sample.refusing id opp')
               ("/opportunities/" +:+ pretty id) in
  process_opportunity Py2 Sample.refusing TestCase.clock TestCase.ids
    Scenario.catalog Sample.new_opportunity initial
  = (Raise err,
     mk_state (trace initial ++ [Put id opp'; Log CRITICAL (ApiError err)]) 2).
Proof.
  apply (refused_write_raises Py2 Sample.refusing TestCase.clock TestCase.ids
           Scenario.catalog Sample.new_opportunity 1 Scenario.stage1 initial
           0%nat (Opportunity.CUSTOMFIELDS Sample.seen) (mk_state [] 2)).
  - reflexivity.
  - lia.
  - vm_compute. reflexivity.
  - vm_compute. reflexivity.
  - simpl. lia.
Defined.

Lemma accepted_write_witness :
  ∃ v, value_at (Opportunity.CUSTOMFIELDS Sample.seen) 0 = Some v ∧
    let opp' := Opportunity.with_CUSTOMFIELDS Sample.new_opportunity
                  (Opportunity.CUSTOMFIELDS Sample.seen) in
    let id := Opportunity.OPPORTUNITY_ID Sample.new_opportunity in
    process_opportunity Py2 Scenario.srv TestCase.clock TestCase.ids
      Scenario.catalog Sample.new_opportunity initial
    = (Ok (Next, opp'),
       mk_state (trace initial ++ [Put id opp'; Log INFO (StageUpdated id v)]) 2).
Proof.
  apply (accepted_write_is_logged Py2 Scenario.srv TestCase.clock TestCase.ids
           Scenario.catalog Sample.new_opportunity 1 Scenario.stage1 initial
           0%nat (Opportunity.CUSTOMFIELDS Sample.seen) (mk_state [] 2)).
  - reflexivity.
  - lia.
  - vm_compute. reflexivity.
  - vm_compute. reflexivity.
  - reflexivity.
Defined.

Lemma writes_follow_the_list_witness :
  ∃ evs,
    trace (for_opportunities Py2 Scenario.srv TestCase.clock TestCase.ids
             Scenario.catalog Sample.three initial).2
    = trace initial ++ evs ∧
    put_ids evs `prefix_of`
      (Opportunity.OPPORTUNITY_ID
         <$> filter (λ opp, has_stage opp = true) Sample.three).
Proof.
  apply (writes_follow_the_list Py2 Scenario.srv TestCase.clock TestCase.ids
           Scenario.catalog Sample.three initial
           (for_opportunities Py2 Scenario.srv TestCase.clock TestCase.ids
              Scenario.catalog Sample.three initial).1).
  vm_compute. reflexivity.
Defined.

Lemma unreadable_date_witness :
  process_opportunity Py2 Scenario.srv TestCase.clock TestCase.ids
    Scenario.catalog (Scenario.tracked (VInt 1) "yesterday" (VInt 0)) initial
  = (Raise ValueError, tick initial).
Proof.
  apply (unreadable_date_raises Scenario.srv TestCase.clock TestCase.ids
           scenario_ids_distinct Py2 Scenario.catalog
           (Scenario.tracked (VInt 1) "yesterday" (VInt 0)) 1 Scenario.stage1
           initial (VInt 1) "yesterday").
  - reflexivity.
  - lia.
  - vm_compute. reflexivity.
  - reflexivity.
  - reflexivity.
  - reflexivity.
  - reflexivity.
  - reflexivity.
  - reflexivity.
Defined.

Lemma text_in_last_known_stage_witness :
  process_opportunity Py3 Scenario.srv TestCase.clock TestCase.ids
    Scenario.catalog
    (Scenario.tracked (VStr "1") "2016-03-24 00:00:00" (VInt 3)) initial
  = (Raise TypeError, tick initial)
  ∧ ∃ r s' opp',
      process_opportunity Py2 Scenario.srv TestCase.clock TestCase.ids
        Scenario.catalog
        (Scenario.tracked (VStr "1") "2016-03-24 00:00:00" (VInt 3)) initial
      = (r, s') ∧
      sent initial s' opp' ∧
      first_entry (Opportunity.CUSTOMFIELDS opp') "last_stage"
      = first_entry
          (Opportunity.CUSTOMFIELDS
             (Scenario.tracked (VStr "1") "2016-03-24 00:00:00" (VInt 3)))
          "last_stage" ∧
      (is_Some (first_entry
                  (Opportunity.CUSTOMFIELDS
                     (Scenario.tracked (VStr "1") "2016-03-24 00:00:00" (VInt 3)))
                  "last_time") →
       is_Some (first_entry
                  (Opportunity.CUSTOMFIELDS
                     (Scenario.tracked (VStr "1") "2016-03-24 00:00:00" (VInt 3)))
                  "days_in_cur_stage") →
       opp' = Scenario.tracked (VStr "1") "2016-03-24 00:00:00" (VInt 3)).
Proof.
  apply (text_in_last_known_stage Scenario.srv TestCase.clock TestCase.ids
           scenario_ids_distinct Scenario.catalog
           (Scenario.tracked (VStr "1") "2016-03-24 00:00:00" (VInt 3))
           1 Scenario.stage1 initial "1").
  - reflexivity.
  - lia.
  - vm_compute. reflexivity.
  - reflexivity.
  - discriminate.
Defined.

Lemma tracker_leaves_other_fields_witness :
  [FieldValue.mk "note" (Some (VStr "call back"));
   FieldValue.mk "last_stage" (Some (VInt 2));
   FieldValue.mk "last_time" (Some (VStr "2016-03-29 00:00:00"));
   FieldValue.mk "days_in_cur_stage" (Some (VInt 0))] !! 0%nat
  = Some (FieldValue.mk "note" (Some (VStr "call back"))).
Proof.
  apply (tracker_leaves_other_fields Py2 TestCase.clock TestCase.ids 2
           Sample.with_note initial 1%nat
           [FieldValue.mk "note" (Some (VStr "call back"));
            FieldValue.mk "last_stage" (Some (VInt 2));
            FieldValue.mk "last_time" (Some (VStr "2016-03-29 00:00:00"));
            FieldValue.mk "days_in_cur_stage" (Some (VInt 0))]
           (mk_state [] 2) 0%nat).
  - vm_compute. reflexivity.
  - reflexivity.
  - intros [H | [H | H]]; discriminate.
Defined.

Lemma loop_keeps_ids_and_stages_witness :
  Opportunity.OPPORTUNITY_ID <$> [Sample.seen]
  = Opportunity.OPPORTUNITY_ID <$> [Sample.new_opportunity] ∧
  Opportunity.STAGE_ID <$> [Sample.seen]
  = Opportunity.STAGE_ID <$> [Sample.new_opportunity].
Proof.
  apply (loop_keeps_ids_and_stages Py2 Scenario.srv TestCase.clock TestCase.ids
           Scenario.catalog [Sample.new_opportunity] initial Next [Sample.seen]
           (mk_state [Put 1 Sample.seen; Log INFO (StageUpdated 1 (VInt 1))] 2)).
  vm_compute. reflexivity.
Defined.

Lemma fetch_within_two_pages_witness :
  insightly_get_all Sample.two_pages 2 OPEN_URL initial
  = (Ok Sample.three,
     mk_state
       (trace initial ++ GetPage OPEN_URL 0
          :: if decide (length Sample.three ≤ 2)%nat then []
             else [GetPage OPEN_URL 2])
       (ticks initial)).
Proof.
  apply (fetch_within_two_pages_is_complete Sample.two_pages 2 Sample.three 0).
  - reflexivity.
  - lia.
  - simpl. lia.
Defined.

Lemma refused_stage_catalog_witness :
  let err := HttpError "GET" (status_code (pipeline_stages Sample.without_stages))
               "/PipelineStages" in
  main Py2 Sample.without_stages TestCase.clock 5
  = (Raise err,
     mk_state
       (trace (mk_state [Get "/CustomFields"; GetPage OPEN_URL 0] 0)
        ++ [Get "/PipelineStages"; Log CRITICAL (ApiError err)])
       (ticks (mk_state [Get "/CustomFields"; GetPage OPEN_URL 0] 0))).
Proof.
  apply (refused_stage_catalog_raises Py2 Sample.without_stages TestCase.clock 5
           (FieldDef.mk "last_stage" "OPPORTUNITY" "last known stage")
           (FieldDef.mk "last_time" "OPPORTUNITY" "last time stage changed")
           (FieldDef.mk "days_in_cur_stage" "OPPORTUNITY" "days in current stage")
           [] (mk_state [Get "/CustomFields"; GetPage OPEN_URL 0] 0)).
  - reflexivity.
  - reflexivity.
  - reflexivity.
  - reflexivity.
  - vm_compute. reflexivity.
  - simpl. lia.
Defined.

Lemma upstream_failure_witness :
  ∃ e,
    main Py2 Sample.without_fields TestCase.clock 5
    = (Raise e, mk_state [Get "/CustomFields"; Log CRITICAL (ApiError e)] 0) ∧
    exit_status (main Py2 Sample.without_fields TestCase.clock 5).1 = Some 1.
Proof.
  apply (upstream_failure_raises Py2 Sample.without_fields TestCase.clock 5).
  simpl. lia.
Defined.
